(* ===== verification/_CoqProject ===== *)
-Q . S2P
Prelude.v
Path.v
Classifier.v
FileSystem.v
Organizer.v
Watcher.v
