(* ===== verification/Prelude.v ===== *)
(** * FileOrginzer: a verification development of [src/index.js]

    The program is one Node.js module, [src/index.js], that watches a
    directory with chokidar and moves every new or modified file into a
    sub-folder named after its type ([video], [audio], [image], [doc]).
    Its parts, leaf to root, and the file of this development that models
    each of them:

    - [Prelude.v] (this file): the shared vocabulary.  JavaScript
      completions ([completion]: a normal result or a thrown error), the
      state-and-exception monad [st] that the handlers are written in
      (with [try_catch] for a JavaScript [try]/[catch]), ASCII case mapping
      ([lower], [upper]: [String.prototype.toLowerCase/toUpperCase] on the
      ASCII range) and substring search ([str_contains]).  Hint databases
      [fo] and [fo_rw] and the tactic [fo_run] carry the monad laws.

    - [Path.v]: the parts of Node's [path] module the program calls
      ([basename], [extname], [join], line 3 of index.js), written after
      Node's POSIX implementation ([normalizeString], [normalize], [join],
      [basename], [extname]), plus [resolve_key], the list of segments a
      path string names in the file system.  Node's library is not part of
      the repository, so these definitions have no map entry.

    - [Classifier.v]: [getFolderNameBasedOnExtension] (index.js 18-35),
      the four extension tables and the category type [folder].

    - [FileSystem.v]: the [fs] primitives the program calls ([existsSync],
      [mkdirSync] with [recursive: true], [renameSync], [readdirSync]),
      over a file system state [fsys]: a finite map from resolved paths
      (segment lists) to entries, a file with its contents or a directory
      with a [locked] flag (its entry list cannot be changed: [EACCES]).
      The semantics follow POSIX [rename(2)]/[mkdir(2)] and Node's
      documentation: errors are [errno] values, checked in the order the
      kernel checks them.  Well-formedness [fs_wf] (the root is a directory
      and every entry's parent is a directory) is preserved by every
      primitive, on every branch.

    - [Organizer.v]: the process state [proc] (the file system and the
      console log, a list of [log_line]s with their stream), the program's
      [createDirectoryIfNeeded] (10-15) and [organizeFile] (38-66) in the
      monad [st proc errno], its [pathToWatch] (7) as a parameter of a
      Section so that the theorems hold for every watched root.

    - [Watcher.v]: [getExistingFiles] (69-76), the start-up sequence
      (79 and the [ready] line 116), the [ignored] pattern handed to chokidar (84), the event
      listeners (93-116) as one [handle] function over chokidar's events,
      the delivery of events one at a time, where an exception that escapes
      a listener stops the process (the controller's [status] becomes
      [Crashed] and [deliver] handles nothing more), and the step relation
      [step] of the system with the environment (the user creating,
      changing and removing files) interleaved.  chokidar's options are
      the record [watchOptions] (82-90); the model of chokidar reads its
      [ignored] field, the timing fields only shape when events arrive.  [main] is the program with the root of line 7.

    How they interact: chokidar calls a listener of [handle]; [add] and
    [change] call [organizeFile], which asks [getFolderNameBasedOnExtension]
    for a folder, computes the destination with [join]/[basename]/[extname],
    calls [createDirectoryIfNeeded] (outside the [try]) and [renameSync]
    (inside it).  The state threaded through all of them is [proc].

    Theorems, by group (claim ids C1-C18 in the doc comments):
    - the classifier (C1-C4, [Classifier.v]): the chain of [includes]
      tests equals a lookup in the spec's extension table on the
      lower-cased extension; case does not matter; every listed extension
      is classified into its group; [null] exactly for unlisted ones;
    - the organizer (C5-C10, [Organizer.v]): the exact result of
      [organizeFile] on each branch that acts (move with folder creation,
      vanished source caught and logged, file already in place, uncaught
      [mkdirSync] error, silent overwrite), and idempotence of
      [createDirectoryIfNeeded];
    - the controller (C11-C18, [Watcher.v]): the de-duplication of [add]
      against the start-up listing, and its staleness in every state
      reachable by events and user changes (induction on [rtc step]); the
      exact controller state after the [add] of a new file and after the
      [change] of a vanished one; the routing of the other events; the
      [ignored] pattern; start-up; and the crash of the watcher when the
      folder cannot be created.

    Bounds and fuel: every function of the model is structurally recursive
    (on strings, segment lists or the event list), so no fuel is needed and
    every definition evaluates.  Integers do not occur in the program.

    Plan for later work: an abstract specification of
    [renameSync]/[mkdirSync] as relations with the executable primitives
    proved to refine them; chokidar's own event generation ([ignoreInitial],
    [awaitWriteFinish] quiescence) modelled from the spec.

    Not modelled: timestamps ([date-fns] [format] only decorates log
    lines; a log line records whether it carries one), Windows path syntax
    (the program's root is a Windows path; paths are modelled with POSIX
    separators and resolved against [/] as working directory), Unicode case
    mapping outside ASCII, symbolic links, file contents beyond a string,
    and the OS notification mechanism behind chokidar: events are inputs. *)

From Stdlib Require Import Ascii String.
From stdpp Require Export base list gmap strings.

Declare Scope fo_scope.
Delimit Scope fo_scope with fo.
Open Scope string_scope.

Create HintDb fo.
Create Rewrite HintDb fo_rw.

(** ** JavaScript completions and the state/exception monad *)

(** A JavaScript statement completes normally with a value or throws. *)
Inductive completion (E A : Type) : Type :=
| Normal (a : A)
| Thrown (e : E).
Arguments Normal {E A} a.
Arguments Thrown {E A} e.

(** Code that reads and writes a state [S] and may throw an [E]. *)
Definition st (S E A : Type) : Type := S -> completion E A * S.

Section Monad.
Context {S E : Type}.

Definition ret {A} (a : A) : st S E A := fun s => (Normal a, s).
Definition throw {A} (e : E) : st S E A := fun s => (Thrown e, s).
Definition bind {A B} (c : st S E A) (k : A -> st S E B) : st S E B :=
  fun s => match c s with
           | (Normal a, s') => k a s'
           | (Thrown e, s') => (Thrown e, s')
           end.
Definition get : st S E S := fun s => (Normal s, s).
Definition put (s : S) : st S E unit := fun _ => (Normal tt, s).
Definition modify (f : S -> S) : st S E unit := fun s => (Normal tt, f s).

(** [try { c } catch (err) { h(err) }]: the state reached before the
    throw is kept. *)
Definition try_catch {A} (c : st S E A) (h : E -> st S E A) : st S E A :=
  fun s => match c s with
           | (Normal a, s') => (Normal a, s')
           | (Thrown e, s') => h e s'
           end.
End Monad.

Notation "x <- c ;; k" := (bind c (fun x => k))
  (at level 100, c at next level, right associativity) : fo_scope.
Notation "c ;; k" := (bind c (fun _ => k))
  (at level 100, right associativity) : fo_scope.
Open Scope fo_scope.

Section MonadLaws.
Context {S E : Type}.

Lemma bind_ret_l {A B} (a : A) (k : A -> st S E B) s :
  bind (ret a) k s = k a s.
Proof. reflexivity. Qed.

Lemma bind_throw {A B} (e : E) (k : A -> st S E B) s :
  bind (throw e) k s = (Thrown e, s).
Proof. reflexivity. Qed.

Lemma bind_run {A B} (c : st S E A) (k : A -> st S E B) s :
  bind c k s = match c s with
               | (Normal a, s') => k a s'
               | (Thrown e, s') => (Thrown e, s')
               end.
Proof. reflexivity. Qed.

Lemma bind_assoc {A B C} (c : st S E A) (k : A -> st S E B)
      (k' : B -> st S E C) s :
  bind (bind c k) k' s = bind c (fun a => bind (k a) k') s.
Proof. unfold bind. destruct (c s) as [[a|e] s']; reflexivity. Qed.

Lemma try_catch_normal {A} (c : st S E A) h s a s' :
  c s = (Normal a, s') -> try_catch c h s = (Normal a, s').
Proof. unfold try_catch. intros ->. reflexivity. Qed.

Lemma try_catch_thrown {A} (c : st S E A) h s e s' :
  c s = (Thrown e, s') -> try_catch c h s = h e s'.
Proof. unfold try_catch. intros ->. reflexivity. Qed.
End MonadLaws.

#[export] Hint Rewrite @bind_ret_l @bind_throw : fo_rw.

(** Run a monadic computation that is a chain of binds. *)
Ltac fo_run :=
  repeat (unfold bind, ret, throw, get, put, modify, try_catch; simpl).

(** ** ASCII case mapping: [toLowerCase] and [toUpperCase] *)

Definition ascii_lower (c : ascii) : ascii :=
  let n := nat_of_ascii c in
  if (65 <=? n)%nat && (n <=? 90)%nat then ascii_of_nat (n + 32)%nat else c.

Definition ascii_upper (c : ascii) : ascii :=
  let n := nat_of_ascii c in
  if (97 <=? n)%nat && (n <=? 122)%nat then ascii_of_nat (n - 32)%nat else c.

Fixpoint lower (s : string) : string :=
  match s with
  | EmptyString => EmptyString
  | String c s' => String (ascii_lower c) (lower s')
  end.

Fixpoint upper (s : string) : string :=
  match s with
  | EmptyString => EmptyString
  | String c s' => String (ascii_upper c) (upper s')
  end.

(** [needle] occurs in [hay] at some position: an unanchored regular
    expression made of one literal, and [String.prototype.includes]. *)
Fixpoint str_contains (needle hay : string) : bool :=
  String.prefix needle hay ||
  match hay with
  | EmptyString => false
  | String _ hay' => str_contains needle hay'
  end.

(** Character-level lemmas are decided over the 256 characters. *)
Lemma ascii_lower_upper c : ascii_lower (ascii_upper c) = ascii_lower c.
Proof. destruct c as [[] [] [] [] [] [] [] []]; reflexivity. Qed.

Lemma ascii_lower_idem c : ascii_lower (ascii_lower c) = ascii_lower c.
Proof. destruct c as [[] [] [] [] [] [] [] []]; reflexivity. Qed.

Lemma lower_upper s : lower (upper s) = lower s.
Proof. induction s; simpl; [done|]. by rewrite ascii_lower_upper, IHs. Qed.

Lemma lower_idem s : lower (lower s) = lower s.
Proof. induction s; simpl; [done|]. by rewrite ascii_lower_idem, IHs. Qed.

Lemma lower_empty_iff s : lower s = "" <-> s = "".
Proof. destruct s; simpl; split; congruence. Qed.

#[export] Hint Rewrite lower_upper lower_idem : fo_rw.

Lemma str_contains_app_l needle pre hay :
  str_contains needle hay = true -> str_contains needle (pre ++ hay) = true.
Proof.
  induction pre as [|c pre IH]; simpl; [done|].
  intros H. rewrite IH by done. apply orb_true_r.
Qed.

Lemma str_contains_prefix needle hay :
  String.prefix needle hay = true -> str_contains needle hay = true.
Proof. destruct hay; simpl; intros ->; done. Qed.

#[export] Hint Resolve str_contains_app_l str_contains_prefix : fo.

(** stdpp makes [simpl] leave [append] folded: the steps go by
    conversion. *)
Lemma string_app_assoc (a b c : string) : ((a ++ b) ++ c)%string = (a ++ b ++ c)%string.
Proof. induction a as [|x a IH]; [done|]. exact (f_equal (String x) IH). Qed.

Lemma string_app_nil_r (a : string) : (a ++ "")%string = a.
Proof. induction a as [|x a IH]; [done|]. exact (f_equal (String x) IH). Qed.

Lemma string_app_eq_nil (a b : string) : (a ++ b)%string = "" -> b = "".
Proof. by destruct a. Qed.

#[export] Hint Rewrite string_app_assoc string_app_nil_r : fo_rw.

(** ** Lists *)

Lemma existsb_string_eqb_spec (x : string) (l : list string) :
  existsb (String.eqb x) l = true <-> x ∈ l.
Proof.
  rewrite existsb_exists, list_elem_of_In. split.
  - intros (y & Hy & Heq). apply String.eqb_eq in Heq. by subst.
  - intros Hx. exists x. split; [done|]. apply String.eqb_refl.
Qed.
