(* ===== verification/Path.v ===== *)
(** * Node's [path] module, as far as index.js uses it

    index.js imports [basename], [extname] and [join] from ['path']
    (line 3).  They are library code, not part of the repository; the
    definitions below follow Node's POSIX implementation
    ([lib/path.js]: [normalizeString], [normalize], [join], [basename],
    [extname]) on strings of ASCII characters.  [resolve_key] gives the
    segments a path string designates in the file system model
    ([FileSystem.v]): the path is normalized and resolved against [/]. *)

From Stdlib Require Import Ascii String.
From S2P Require Import Prelude.

Definition sep : ascii := "/".

(** The segments between separators: ["a//b"] gives [["a"; ""; "b"]]. *)
Fixpoint split_sep (s : string) : list string :=
  match s with
  | EmptyString => [""]
  | String c s' =>
      if ascii_dec c sep then "" :: split_sep s'
      else match split_sep s' with
           | seg :: rest => String c seg :: rest
           | [] => [String c ""]
           end
  end.

(** [normalizeString(path, allowAboveRoot)]: empty and ["."] segments are
    dropped, [".."] removes the last kept segment, or is kept when there is
    none (or the last is itself [".."]) and [above] allows it.  The
    accumulator holds the kept segments, last first. *)
Fixpoint norm_segs (above : bool) (acc : list string) (segs : list string)
    : list string :=
  match segs with
  | [] => acc
  | s :: rest =>
      if (s =? "") || (s =? ".") then norm_segs above acc rest
      else if s =? ".." then
        match acc with
        | top :: acc' =>
            if top =? ".." then norm_segs above (".." :: acc) rest
            else norm_segs above acc' rest
        | [] => if above then norm_segs above [".."] rest
                else norm_segs above [] rest
        end
      else norm_segs above (s :: acc) rest
  end.

Definition is_absolute (p : string) : bool := String.prefix "/" p.

Definition ends_with_sep (p : string) : bool :=
  match rev (list_ascii_of_string p) with
  | c :: _ => if ascii_dec c sep then true else false
  | [] => false
  end.

(** [path.posix.normalize]. *)
Definition normalize (p : string) : string :=
  if p =? "" then "." else
  let abs := is_absolute p in
  let trailing := ends_with_sep p in
  let body := String.concat "/" (rev (norm_segs (negb abs) [] (split_sep p))) in
  if body =? "" then
    (if abs then "/" else if trailing then "./" else ".")
  else
    let body := if trailing then body ++ "/" else body in
    if abs then "/" ++ body else body.

(** [path.posix.join(a, b)]: the non-empty arguments joined with ["/"],
    then normalized; ["."] when both are empty. *)
Definition join (a b : string) : string :=
  match a, b with
  | EmptyString, EmptyString => "."
  | EmptyString, _ => normalize b
  | _, EmptyString => normalize a
  | _, _ => normalize (a ++ "/" ++ b)
  end.

(** Characters, read from the end. *)
Definition rchars (s : string) : list ascii := rev (list_ascii_of_string s).
Definition of_rchars (l : list ascii) : string := string_of_list_ascii (rev l).

Fixpoint drop_seps (l : list ascii) : list ascii :=
  match l with
  | c :: l' => if ascii_dec c sep then drop_seps l' else l
  | [] => []
  end.

Fixpoint take_seg (l : list ascii) : list ascii :=
  match l with
  | c :: l' => if ascii_dec c sep then [] else c :: take_seg l'
  | [] => []
  end.

(** [path.posix.basename(p)]: trailing separators are ignored and the last
    segment is returned. *)
Definition basename (p : string) : string :=
  of_rchars (take_seg (drop_seps (rchars p))).

(** The characters after the last dot of a segment read from the end, and
    those before it. *)
Fixpoint split_last_dot (l : list ascii) : option (list ascii * list ascii) :=
  match l with
  | [] => None
  | c :: l' =>
      if ascii_dec c "." then Some ([], l')
      else match split_last_dot l' with
           | Some (after, before) => Some (c :: after, before)
           | None => None
           end
  end.

(** [path.posix.extname(p)]: from the last dot of the last segment to its
    end; empty when the segment has no dot, when its only dot is its first
    character, and for [".."]. *)
Definition extname (p : string) : string :=
  let b := basename p in
  if b =? ".." then "" else
  match split_last_dot (rchars b) with
  | Some (after, _ :: _) => of_rchars (after ++ ["."%char])
  | _ => ""
  end.

(** [String.prototype.slice(1)]. *)
Definition slice1 (s : string) : string :=
  match s with
  | EmptyString => EmptyString
  | String _ s' => s'
  end.

(** The segments a path designates, resolved against [/]. *)
Definition resolve_key (p : string) : list string :=
  rev (norm_segs false [] (split_sep p)).

(** ** Lemmas *)

Lemma rchars_of_rchars l : rchars (of_rchars l) = l.
Proof.
  unfold rchars, of_rchars. by rewrite list_ascii_of_string_of_list_ascii, rev_involutive.
Qed.

Lemma take_seg_no_sep l : sep ∉ take_seg l.
Proof.
  induction l as [|c l IH]; cbn [take_seg]; [set_solver|].
  destruct (ascii_dec c sep) as [|Hc]; [set_solver|].
  intros Hin. apply elem_of_cons in Hin as [Heq | ?]; auto.
Qed.

(** A base name never contains a separator. *)
Lemma basename_no_sep p : sep ∉ rchars (basename p).
Proof. unfold basename. rewrite rchars_of_rchars. apply take_seg_no_sep. Qed.

(** ** Segments *)

(** A plain segment: non-empty, not ["."] or [".."], without separator. *)
Definition no_sep (s : string) : bool :=
  negb (existsb (fun c => if ascii_dec c sep then true else false) (list_ascii_of_string s)).

Definition plain_seg (s : string) : bool :=
  negb (s =? "") && negb (s =? ".") && negb (s =? "..") && no_sep s.

Lemma split_sep_nonempty s : split_sep s <> [].
Proof.
  induction s as [|c s IH]; simpl; [done|].
  destruct (ascii_dec c sep); [done|]. by destruct (split_sep s).
Qed.

Lemma split_sep_app_sep a b :
  split_sep (a ++ String sep b) = (split_sep a ++ split_sep b)%list.
Proof.
  induction a as [|c a IH]; simpl.
  - by destruct (ascii_dec sep sep).
  - destruct (ascii_dec c sep); [by rewrite IH|]. rewrite IH.
    pose proof (split_sep_nonempty a) as Hne. by destruct (split_sep a).
Qed.

Lemma split_sep_no_sep s : no_sep s = true -> split_sep s = [s].
Proof.
  induction s as [|c s IH]; simpl; [done|]. unfold no_sep. simpl.
  destruct (ascii_dec c sep); [done|]. simpl. intros H. by rewrite IH.
Qed.

Lemma norm_segs_app above acc l1 l2 :
  norm_segs above acc (l1 ++ l2)%list = norm_segs above (norm_segs above acc l1) l2.
Proof.
  revert acc. induction l1 as [|s l1 IH]; intros acc; [done|]. simpl.
  repeat case_match; apply IH.
Qed.

Lemma norm_segs_plain above acc s :
  plain_seg s = true -> norm_segs above acc [s] = s :: acc.
Proof.
  unfold plain_seg. intros H. apply andb_true_iff in H as [H _].
  apply andb_true_iff in H as [H H3]. apply andb_true_iff in H as [H1 H2].
  apply negb_true_iff in H1, H2, H3. simpl. by rewrite H1, H2, H3.
Qed.

(** Appending a separator and a plain segment adds that segment. *)
Lemma resolve_key_app_plain a b :
  plain_seg b = true -> resolve_key (a ++ "/" ++ b) = (resolve_key a ++ [b])%list.
Proof.
  intros Hb. unfold resolve_key. change ("/" ++ b) with (String sep b).
  rewrite split_sep_app_sep, norm_segs_app.
  assert (Hs : split_sep b = [b]).
  { apply split_sep_no_sep. unfold plain_seg in Hb. by apply andb_true_iff in Hb as [_ ->]. }
  by rewrite Hs, norm_segs_plain.
Qed.

(** *** [normalize] does not change the segments a path designates *)

Definition good_seg (x : string) : Prop := x <> "" /\ x <> "." /\ no_sep x = true.

Lemma split_sep_all_no_sep s : Forall (fun x => no_sep x = true) (split_sep s).
Proof.
  induction s as [|c s IH]; simpl; [by repeat constructor|].
  destruct (ascii_dec c sep) as [Hc|Hc]; [by constructor|].
  destruct (split_sep s) as [|x rest] eqn:E; [by destruct (split_sep_nonempty s)|].
  inversion IH as [|? ? Hx Hrest]; subst. constructor; [|done].
  unfold no_sep in *. simpl. by destruct (ascii_dec c sep).
Qed.

(** Normalizing with and without [".."] above the root: the same kept
    segments, with a block of [".."] at the bottom in the first case. *)
Lemma norm_segs_above l : forall R D,
  Forall (fun x => x <> "..") R -> Forall (fun x => x = "..") D ->
  exists R' D', norm_segs true (R ++ D)%list l = (R' ++ D')%list /\
    norm_segs false R l = R' /\
    Forall (fun x => x <> "..") R' /\ Forall (fun x => x = "..") D'.
Proof.
  induction l as [|s l IH]; intros R D HR HD; simpl; [by exists R, D|].
  destruct ((s =? "") || (s =? ".")); [by apply IH|].
  destruct (String.eqb_spec s "..") as [->|Hs].
  - destruct R as [|r R0]; simpl.
    + destruct D as [|d D0]; simpl.
      * apply (IH [] [".."]); by repeat constructor.
      * inversion HD; subst. simpl. apply (IH [] (".." :: ".." :: D0)); by repeat constructor.
    + inversion HR as [|? ? Hr HR0]; subst.
      destruct (String.eqb_spec r "..") as [E|_]; [done|]. by apply IH.
  - apply (IH (s :: R) D); [by constructor|done].
Qed.

Lemma norm_segs_good above acc l :
  Forall good_seg acc -> Forall (fun x => no_sep x = true) l ->
  Forall good_seg (norm_segs above acc l).
Proof.
  revert acc. induction l as [|s l IH]; intros acc Hacc Hl; simpl; [done|].
  inversion Hl as [|? ? Hs Hl']; subst.
  destruct (String.eqb_spec s "") as [->|H1]; simpl; [by apply IH|].
  destruct (String.eqb_spec s ".") as [->|H2]; simpl; [by apply IH|].
  destruct (String.eqb_spec s "..") as [->|H3].
  - destruct acc as [|top acc']; [destruct above|].
    + apply IH; [|done]. constructor; [|done]. done.
    + by apply IH.
    + inversion Hacc; subst. case_match; apply IH; try done. constructor; done.
  - apply IH; [|done]. by constructor.
Qed.

Lemma split_sep_concat L :
  L <> [] -> Forall (fun x => no_sep x = true) L -> split_sep (String.concat "/" L) = L.
Proof.
  induction L as [|x [|y L] IH]; intros Hne HL; [done| |].
  - inversion HL; subst. by apply split_sep_no_sep.
  - inversion HL as [|? ? Hx HL']; subst.
    change (String.concat "/" (x :: y :: L)) with (x ++ String sep (String.concat "/" (y :: L))).
    rewrite split_sep_app_sep, split_sep_no_sep, IH by done. done.
Qed.

Lemma norm_segs_false_push acc L :
  Forall good_seg L -> Forall (fun x => x <> "..") L ->
  norm_segs false acc L = (rev L ++ acc)%list.
Proof.
  revert acc. induction L as [|x L IH]; intros acc HL HL'; [done|].
  inversion HL as [|? ? [Hx1 [Hx4 Hx2]] HL0]; inversion HL' as [|? ? Hx3 HL0']; subst.
  assert (Hp : plain_seg x = true).
  { unfold plain_seg. apply String.eqb_neq in Hx1, Hx3, Hx4. by rewrite Hx1, Hx3, Hx4, Hx2. }
  change (x :: L) with ([x] ++ L)%list. rewrite norm_segs_app, norm_segs_plain by done.
  rewrite IH by done. simpl. by rewrite <- app_assoc.
Qed.

Lemma norm_segs_false_dots D :
  Forall (fun x => x = "..") D -> norm_segs false [] D = [].
Proof.
  induction D as [|d D IH]; intros HD; [done|]. inversion HD; subst. by apply IH.
Qed.

Lemma resolve_key_concat L :
  Forall good_seg L -> resolve_key (String.concat "/" L) = rev (norm_segs false [] L).
Proof.
  intros HL. destruct L as [|x L]; [done|]. unfold resolve_key.
  rewrite split_sep_concat; [done|done|].
  eapply Forall_impl; [exact HL|]. by intros ? (_ & _ & ?).
Qed.

Lemma resolve_key_sep_l x : resolve_key ("/" ++ x) = resolve_key x.
Proof. done. Qed.

Lemma resolve_key_sep_r x : resolve_key (x ++ "/") = resolve_key x.
Proof.
  unfold resolve_key. change "/" with (String sep "").
  by rewrite split_sep_app_sep, norm_segs_app.
Qed.

Lemma concat_empty L : Forall good_seg L -> String.concat "/" L = "" -> L = [].
Proof.
  destruct L as [|x [|y L]]; [done| |]; intros HL; inversion HL as [|? ? (Hx & _ & _) _]; subst.
  - done.
  - simpl. destruct x; [done|]. done.
Qed.

Lemma resolve_key_normalize p : resolve_key (normalize p) = resolve_key p.
Proof.
  unfold normalize. destruct (String.eqb_spec p "") as [->|Hp]; [done|].
  destruct (norm_segs_above (split_sep p) [] [] ltac:(done) ltac:(done))
    as (R & D & Ht & Hf & HR & HD).
  rewrite app_nil_r in Ht.
  assert (Hgood : Forall good_seg (norm_segs (negb (is_absolute p)) [] (split_sep p)))
    by (apply norm_segs_good; [done|apply split_sep_all_no_sep]).
  assert (HN : norm_segs (negb (is_absolute p)) [] (split_sep p) = R \/
               norm_segs (negb (is_absolute p)) [] (split_sep p) = (R ++ D)%list)
    by (destruct (is_absolute p); auto).
  assert (Hres : resolve_key p = rev R) by (unfold resolve_key; by rewrite Hf).
  assert (HgR : Forall good_seg R).
  { destruct HN as [HN|HN]; rewrite HN in Hgood; [done|]. by apply Forall_app in Hgood as [? _]. }
  assert (Hbody : resolve_key (String.concat "/" (rev (norm_segs (negb (is_absolute p)) [] (split_sep p)))) = rev R).
  { rewrite resolve_key_concat by (by apply Forall_rev).
    destruct HN as [HN|HN]; rewrite HN.
    - rewrite norm_segs_false_push by (by apply Forall_rev). by rewrite rev_involutive, app_nil_r.
    - rewrite rev_app_distr, norm_segs_app, norm_segs_false_dots by (by apply Forall_rev).
      rewrite norm_segs_false_push by (by apply Forall_rev). by rewrite rev_involutive, app_nil_r. }
  rewrite Hres.
  destruct (String.eqb_spec (String.concat "/" (rev (norm_segs (negb (is_absolute p)) [] (split_sep p)))) "") as [E|E].
  - rewrite E in Hbody. apply concat_empty in E; [|by apply Forall_rev].
    apply (f_equal (@rev _)) in E. rewrite rev_involutive in E. simpl in E.
    rewrite <- Hbody. by destruct (is_absolute p), (ends_with_sep p).
  - destruct (ends_with_sep p), (is_absolute p);
      rewrite ?resolve_key_sep_l, ?resolve_key_sep_r; exact Hbody.
Qed.

(** *** [join] with a plain segment *)

Lemma plain_seg_nonempty s : plain_seg s = true -> s <> "".
Proof. unfold plain_seg. intros H ->. done. Qed.

(** [join(a, b)] designates [b] inside [a]. *)
Lemma resolve_key_join a b :
  plain_seg b = true -> resolve_key (join a b) = (resolve_key a ++ [b])%list.
Proof.
  intros Hb. pose proof (plain_seg_nonempty b Hb) as Hb0. unfold join.
  destruct a as [|c a]; destruct b as [|c' b]; try done.
  - rewrite resolve_key_normalize. change (resolve_key (String c' b)) with
      (resolve_key ("" ++ "/" ++ String c' b)). by rewrite resolve_key_app_plain.
  - rewrite resolve_key_normalize. by apply resolve_key_app_plain.
Qed.

Lemma rchars_app a b : rchars (a ++ b) = (rchars b ++ rchars a)%list.
Proof.
  unfold rchars. rewrite <- rev_app_distr. f_equal.
  induction a as [|c a IH]; simpl; [done|]. by rewrite IH.
Qed.

Lemma no_sep_rchars s : no_sep s = true <-> sep ∉ rchars s.
Proof.
  unfold no_sep, rchars. rewrite negb_true_iff, <- not_true_iff_false, existsb_exists.
  rewrite list_elem_of_In, <- in_rev. split.
  - intros H Hin. apply H. exists sep. by destruct (ascii_dec sep sep).
  - intros H [c [Hin Hc]]. destruct (ascii_dec c sep) as [->|]; [done|done].
Qed.

Lemma take_seg_no_sep_app l r : sep ∉ l -> take_seg (l ++ sep :: r) = l.
Proof.
  induction l as [|c l IH]; simpl; intros Hl.
  - by destruct (ascii_dec sep sep).
  - destruct (ascii_dec c sep) as [->|]; [set_solver|]. rewrite IH; [done|set_solver].
Qed.

Lemma take_seg_no_sep_all l : sep ∉ l -> take_seg l = l.
Proof.
  induction l as [|c l IH]; simpl; intros Hl; [done|].
  destruct (ascii_dec c sep) as [->|]; [set_solver|]. rewrite IH; [done|set_solver].
Qed.

(** The base name of [x/n], and of [n] alone, is [n] for a plain [n]. *)
Lemma basename_after_sep x n :
  plain_seg n = true -> basename (x ++ "/" ++ n) = n /\ basename n = n.
Proof.
  intros Hn. pose proof (plain_seg_nonempty n Hn) as Hn0.
  assert (Hs : sep ∉ rchars n).
  { apply no_sep_rchars. unfold plain_seg in Hn. by apply andb_true_iff in Hn as [_ ->]. }
  assert (Hd : forall r, drop_seps (rchars n ++ r)%list = (rchars n ++ r)%list).
  { intros r. destruct (rchars n) as [|c l] eqn:E.
    - apply (f_equal of_rchars) in E. unfold of_rchars, rchars in E.
      rewrite rev_involutive, string_of_list_ascii_of_string in E. done.
    - simpl. destruct (ascii_dec c sep) as [->|]; [set_solver|done]. }
  unfold basename. split.
  - rewrite !rchars_app, <- app_assoc. change (rchars "/") with [sep].
    rewrite Hd. simpl. rewrite take_seg_no_sep_app by done.
    unfold of_rchars, rchars. by rewrite rev_involutive, string_of_list_ascii_of_string.
  - rewrite <- (app_nil_r (rchars n)), Hd, app_nil_r, take_seg_no_sep_all by done.
    unfold of_rchars, rchars. by rewrite rev_involutive, string_of_list_ascii_of_string.
Qed.

(** A classified file has a plain base name: [extname] is empty for [""],
    ["."], [".."] and names with a separator cannot come out of
    [basename]. *)
Lemma extname_plain_basename p : extname p <> "" -> plain_seg (basename p) = true.
Proof.
  unfold extname. intros He.
  destruct (String.eqb_spec (basename p) "..") as [E|Hdd]; [done|].
  destruct (split_last_dot (rchars (basename p))) as [[after [|x before]]|] eqn:Hs; try done.
  unfold plain_seg. apply String.eqb_neq in Hdd. rewrite Hdd.
  assert (Hns : no_sep (basename p) = true) by (apply no_sep_rchars, basename_no_sep).
  rewrite Hns. destruct (String.eqb_spec (basename p) "") as [E|_].
  { rewrite E in Hs. done. }
  destruct (String.eqb_spec (basename p) ".") as [E|_]; [|done].
  rewrite E in Hs. done.
Qed.

Lemma concat_snoc L n :
  String.concat "/" (L ++ [n])%list =
    match L with [] => n | _ => String.concat "/" L ++ "/" ++ n end.
Proof.
  induction L as [|x [|y L] IH]; [done|done|].
  change (String.concat "/" ((x :: y :: L) ++ [n])%list) with
    (x ++ "/" ++ String.concat "/" ((y :: L) ++ [n])%list).
  rewrite IH. change (String.concat "/" (x :: y :: L)) with
    (x ++ "/" ++ String.concat "/" (y :: L)).
  by rewrite !string_app_assoc.
Qed.

Lemma ends_with_sep_plain x n : plain_seg n = true -> ends_with_sep (x ++ n) = false.
Proof.
  intros Hn. unfold ends_with_sep. change (rev (list_ascii_of_string (x ++ n)))
    with (rchars (x ++ n)). rewrite rchars_app.
  assert (Hs : sep ∉ rchars n).
  { apply no_sep_rchars. unfold plain_seg in Hn. by apply andb_true_iff in Hn as [_ ->]. }
  destruct (rchars n) as [|c l] eqn:E.
  - apply (f_equal of_rchars) in E. unfold of_rchars, rchars in E.
    rewrite rev_involutive, string_of_list_ascii_of_string in E. by subst n.
  - simpl. destruct (ascii_dec c sep) as [->|]; [set_solver|done].
Qed.

(** A normalized path whose last segment is the plain [n] ends with [n]. *)
Lemma normalize_last q L n :
  plain_seg n = true -> split_sep q = (L ++ [n])%list -> ends_with_sep q = false ->
  exists x, normalize q = (x ++ "/" ++ n)%string \/ normalize q = n.
Proof.
  intros Hn Hq He. pose proof (plain_seg_nonempty n Hn) as Hn0. unfold normalize.
  destruct (String.eqb_spec q "") as [->|_].
  { destruct L as [|x [|y L]]; simpl in Hq; inversion Hq; subst; done. }
  rewrite He, Hq, norm_segs_app, norm_segs_plain by done.
  simpl rev. rewrite concat_snoc.
  destruct (rev (norm_segs _ [] L)) as [|y L'].
  - destruct (String.eqb_spec n "") as [|_]; [done|].
    destruct (is_absolute q); [exists ""; by left|exists ""; by right].
  - destruct (String.eqb_spec (String.concat "/" (y :: L') ++ "/" ++ n) "") as [E'|_].
    { apply string_app_eq_nil in E'. done. }
    destruct (is_absolute q).
    + exists ("/" ++ String.concat "/" (y :: L'))%string. left. by rewrite string_app_assoc.
    + exists (String.concat "/" (y :: L')). by left.
Qed.

(** [join(d, n)] ends with the segment [n]: its base name is [n]. *)
Lemma basename_join d n : plain_seg n = true -> basename (join d n) = n.
Proof.
  intros Hn. pose proof (plain_seg_nonempty n Hn) as Hn0.
  assert (Hs : split_sep n = [n]).
  { apply split_sep_no_sep. unfold plain_seg in Hn. by apply andb_true_iff in Hn as [_ ->]. }
  assert (Hq : exists x, join d n = (x ++ "/" ++ n)%string \/ join d n = n).
  { unfold join. destruct d as [|c d]; destruct n as [|c' n]; try done.
    - apply (normalize_last _ []); [done|done|].
      apply (ends_with_sep_plain "" (String c' n)). done.
    - apply (normalize_last _ (split_sep (String c d))); [done| |].
      + change ("/" ++ String c' n)%string with (String sep (String c' n)).
        by rewrite split_sep_app_sep, Hs.
      + rewrite <- string_app_assoc. by apply ends_with_sep_plain. }
  destruct Hq as [x [-> | ->]]; by apply basename_after_sep.
Qed.

Example basename_ex1 : basename "/home/u/report.PDF" = "report.PDF".
Proof. reflexivity. Qed.
Example basename_ex2 : basename "a/b/" = "b".
Proof. reflexivity. Qed.
Example extname_ex1 : extname "/home/u/report.PDF" = ".PDF".
Proof. reflexivity. Qed.
Example extname_ex2 : extname "/home/u/.bashrc" = "".
Proof. reflexivity. Qed.
Example extname_ex3 : extname "index." = ".".
Proof. reflexivity. Qed.
Example extname_ex4 : extname "a/.." = "".
Proof. reflexivity. Qed.
Example extname_ex5 : extname "archive.tar.gz" = ".gz".
Proof. reflexivity. Qed.
Example join_ex1 : join "C:/Users/ASUS/Documents/Mahesh/FileOrginzer/" "doc"
                   = "C:/Users/ASUS/Documents/Mahesh/FileOrginzer/doc".
Proof. reflexivity. Qed.
Example join_ex2 : join "/a/b" "../c" = "/a/c".
Proof. reflexivity. Qed.
Example resolve_ex : resolve_key "/a//b/./c/../d" = ["a"; "b"; "d"].
Proof. reflexivity. Qed.
