(* ===== verification/Classifier.v ===== *)
(** * The classifier: [getFolderNameBasedOnExtension] (index.js 18-35)

    The four extension arrays, the category a file goes to, and the
    function that picks it.  The JavaScript function returns one of the
    strings ['video'], ['audio'], ['image'], ['doc'] or [null]; here the
    four strings are the constructors of [folder] (with [folder_name] for
    the string) and [null] is [None].  The spec's [ExtensionTable] is
    [extension_table], a [gmap]; the theorems show that the code's chain of
    [includes] tests computes exactly that table on the lower-cased
    extension, whatever the case of the input. *)

From Stdlib Require Import Ascii String.
From S2P Require Import Prelude Path.

Module Classifier.

(** The folder names the function can return. *)
Inductive folder := video | audio | image | doc.

#[export] Instance folder_eq_dec : EqDecision folder.
Proof. solve_decision. Defined.

Definition folder_name (f : folder) : string :=
  match f with
  | video => "video"
  | audio => "audio"
  | image => "image"
  | doc => "doc"
  end.

Definition imageExtensions : list string := ["jpg"; "jpeg"; "png"; "gif"; "bmp"].
Definition docExtensions : list string := ["pdf"; "doc"; "docx"; "txt"; "ppt"; "pptx"].
Definition videoExtensions : list string := ["mp4"; "avi"; "mkv"; "mov"].
Definition audioExtensions : list string := ["mp3"; "wav"; "aac"; "flac"].

(** [Array.prototype.includes] on strings (SameValueZero is string
    equality). *)
Definition includes (l : list string) (x : string) : bool :=
  existsb (String.eqb x) l.

(** The chain of tests of lines 24-34, in the code's order: video, audio,
    image, doc. *)
Definition getFolderNameBasedOnExtension (fileExtension : string) : option folder :=
  if includes videoExtensions (lower fileExtension) then Some video
  else if includes audioExtensions (lower fileExtension) then Some audio
  else if includes imageExtensions (lower fileExtension) then Some image
  else if includes docExtensions (lower fileExtension) then Some doc
  else None.

(** ** The specification: the extension table of the spec *)

Definition extensions_of (f : folder) : list string :=
  match f with
  | video => videoExtensions
  | audio => audioExtensions
  | image => imageExtensions
  | doc => docExtensions
  end.

Definition all_folders : list folder := [image; doc; video; audio].

Definition all_extensions : list string :=
  imageExtensions ++ docExtensions ++ videoExtensions ++ audioExtensions.

(** The spec's [ExtensionTable]: lower-case extension to category. *)
Definition extension_table : gmap string folder :=
  list_to_map (flat_map (fun f => map (fun x => (x, f)) (extensions_of f)) all_folders).

Definition folder_of_name (s : string) : option folder :=
  if s =? "video" then Some video
  else if s =? "audio" then Some audio
  else if s =? "image" then Some image
  else if s =? "doc" then Some doc
  else None.

(** ** Lemmas *)

Lemma includes_spec l x : includes l x = true <-> x ∈ l.
Proof. apply existsb_string_eqb_spec. Qed.

Lemma all_extensions_NoDup : NoDup all_extensions.
Proof. apply (bool_decide_unpack _). vm_compute. reflexivity. Qed.

Lemma extensions_of_sub f x : x ∈ extensions_of f -> x ∈ all_extensions.
Proof. unfold all_extensions. rewrite !elem_of_app. destruct f; simpl; tauto. Qed.

Lemma getFolder_not_in x :
  lower x ∉ all_extensions -> getFolderNameBasedOnExtension x = None.
Proof.
  intros Hx.
  assert (Hf : forall f, includes (extensions_of f) (lower x) = false).
  { intros f. destruct (includes _ _) eqn:E; [|done].
    apply includes_spec in E. destruct Hx. by eapply extensions_of_sub. }
  unfold getFolderNameBasedOnExtension.
  rewrite (Hf video : includes videoExtensions _ = false),
    (Hf audio : includes audioExtensions _ = false),
    (Hf image : includes imageExtensions _ = false),
    (Hf doc : includes docExtensions _ = false).
  reflexivity.
Qed.

Lemma table_not_in x : x ∉ all_extensions -> extension_table !! x = None.
Proof.
  intros Hx. apply not_elem_of_list_to_map. vm_compute. set_solver.
Qed.

Lemma getFolder_lower x :
  getFolderNameBasedOnExtension (lower x) = getFolderNameBasedOnExtension x.
Proof. unfold getFolderNameBasedOnExtension. by autorewrite with fo_rw. Qed.

(** The code agrees with the table on every listed extension, and every
    listed extension is already lower-case: both checked by evaluation. *)
Lemma getFolder_agrees_on_table :
  Forall (fun x => getFolderNameBasedOnExtension x = extension_table !! x)
    all_extensions.
Proof. apply (bool_decide_unpack _). vm_compute. reflexivity. Qed.

Lemma getFolder_on_table x :
  x ∈ all_extensions -> getFolderNameBasedOnExtension x = extension_table !! x.
Proof.
  pose proof getFolder_agrees_on_table as Ha. rewrite Forall_forall in Ha.
  apply Ha.
Qed.

(** Upper-casing before classifying changes nothing. *)
Lemma getFolder_upper x :
  getFolderNameBasedOnExtension (upper x) = getFolderNameBasedOnExtension x.
Proof. rewrite <- getFolder_lower. autorewrite with fo_rw. apply getFolder_lower. Qed.

Lemma getFolder_groups :
  Forall (fun f => Forall (fun x => getFolderNameBasedOnExtension x = Some f)
                          (extensions_of f)) all_folders.
Proof. apply (bool_decide_unpack _). vm_compute. reflexivity. Qed.

Lemma table_keys :
  fst <$> flat_map (fun f => map (fun x => (x, f)) (extensions_of f)) all_folders
  = all_extensions.
Proof. reflexivity. Qed.

Lemma all_folders_complete f : f ∈ all_folders.
Proof. destruct f; vm_compute; set_solver. Qed.

#[export] Hint Resolve extensions_of_sub all_folders_complete : fo.

(** ** Properties of the classifier *)

(** C1. The chain of [includes] tests of lines 24-34 computes the spec's
    extension table on the lower-cased extension: since the four groups
    are disjoint, the order in which the code tests them does not matter,
    and every extension maps to exactly one category. *)
Theorem getFolder_table (e : string) :
  getFolderNameBasedOnExtension e = extension_table !! lower e.
Proof.
  rewrite <- getFolder_lower.
  destruct (decide (lower e ∈ all_extensions)) as [Hin | Hout].
  - by apply getFolder_on_table.
  - rewrite table_not_in by done. apply getFolder_not_in. by autorewrite with fo_rw.
Qed.

(** C2. Classification ignores case: an extension, its upper-case and its
    lower-case spelling go to the same folder. *)
Theorem getFolder_case_insensitive (e : string) :
  getFolderNameBasedOnExtension (upper e) = getFolderNameBasedOnExtension e /\
  getFolderNameBasedOnExtension (lower e) = getFolderNameBasedOnExtension e.
Proof. split; [apply getFolder_upper | apply getFolder_lower]. Qed.

(** C3. Every extension of a group is sent to that group's folder, in any
    case: ["PDF"] and ["pdf"] go to [doc], ["MP4"] to [video]. *)
Theorem getFolder_documented (f : folder) (x : string) :
  x ∈ extensions_of f ->
  getFolderNameBasedOnExtension x = Some f /\
  getFolderNameBasedOnExtension (upper x) = Some f.
Proof.
  intros Hx.
  assert (H : getFolderNameBasedOnExtension x = Some f).
  { pose proof getFolder_groups as Hg. rewrite Forall_forall in Hg.
    specialize (Hg f ltac:(auto with fo)). rewrite Forall_forall in Hg.
    by apply Hg. }
  split; [done|]. by rewrite getFolder_upper.
Qed.

Lemma getFolder_documented_witness :
  "pdf" ∈ extensions_of doc /\
  getFolderNameBasedOnExtension "pdf" = Some doc /\
  getFolderNameBasedOnExtension (upper "pdf") = Some doc.
Proof.
  assert (H : "pdf" ∈ extensions_of doc) by (vm_compute; set_solver).
  split; [exact H|]. apply (getFolder_documented doc "pdf"). exact H.
Defined.

(** C4. An extension that is in no group, in any case, is not classified
    ([null]); the empty extension is one of them. *)
Theorem getFolder_unknown (e : string) :
  getFolderNameBasedOnExtension e = None <-> lower e ∉ all_extensions.
Proof.
  split.
  - intros Hnone Hin.
    rewrite <- getFolder_lower, getFolder_on_table in Hnone by done.
    apply not_elem_of_list_to_map_2 in Hnone. apply Hnone.
    by rewrite table_keys.
  - apply getFolder_not_in.
Qed.

Lemma folder_name_roundtrip f : folder_of_name (folder_name f) = Some f.
Proof. by destruct f. Qed.

Lemma folder_name_inj f g : folder_name f = folder_name g -> f = g.
Proof.
  intros H. apply (f_equal folder_of_name) in H.
  rewrite !folder_name_roundtrip in H. congruence.
Qed.

End Classifier.
