(* ===== verification/FileSystem.v ===== *)
(** * The file system and the [fs] primitives index.js calls

    index.js imports [existsSync], [mkdirSync], [renameSync] and
    [readdirSync] from ['fs'] (line 2).  They are Node's bindings of the
    POSIX calls [stat], [mkdir] (with [recursive: true], Node's [mkdirp]),
    [rename] and [readdir]; the definitions below follow POSIX and Node's
    documentation, and are not repository code (no map entry).

    State: [fsys], a finite map from resolved paths (lists of segments,
    [Path.resolve_key]) to entries, a file with its contents or a
    directory with a flag telling that its entry list cannot be changed
    (the caller lacks write permission: [EACCES]).  The root [[]] is a
    directory.  An error is an [errno]; the primitives are computations of
    [st fsys errno], so a thrown error leaves the state as it was when the
    error was detected (a recursive [mkdir] keeps the directories it
    created before failing). *)

From Stdlib Require Import Ascii String.
From S2P Require Import Prelude Path.

Local Open Scope list_scope.

Module FileSystem.

Inductive errno := ENOENT | ENOTDIR | EISDIR | EEXIST | EACCES | ENOTEMPTY | EINVAL | EBUSY.

#[export] Instance errno_eq_dec : EqDecision errno.
Proof. solve_decision. Defined.

(** A file with its contents, or a directory; [locked] directories refuse
    the creation, removal and renaming of their entries. *)
Inductive entry := EFile (contents : string) | EDir (locked : bool).

#[export] Instance entry_eq_dec : EqDecision entry.
Proof. solve_decision. Defined.

Abbreviation key := (list string).

Record fsys := mkfs { fs_entries : gmap key entry }.

Definition is_dir (o : option entry) : bool :=
  match o with Some (EDir _) => true | _ => false end.
Definition is_file (o : option entry) : bool :=
  match o with Some (EFile _) => true | _ => false end.

Definition fs_lookup (fs : fsys) (k : key) : option entry := fs_entries fs !! k.

Definition parent (k : key) : key := removelast k.

(** [strip_prefix p k = Some s] when [k = p ++ s]. *)
Fixpoint strip_prefix (p k : key) : option key :=
  match p, k with
  | [], _ => Some k
  | x :: p', y :: k' => if String.eqb x y then strip_prefix p' k' else None
  | _ :: _, [] => None
  end.

Definition prefixb (p k : key) : bool :=
  match strip_prefix p k with Some _ => true | None => false end.

(** The error of a path that does not resolve: [ENOTDIR] when one of its
    proper ancestors is a file, [ENOENT] otherwise. *)
Fixpoint file_on_path (fs : fsys) (pre rest : key) : bool :=
  match rest with
  | [] | [_] => false
  | s :: rest' => is_file (fs_lookup fs (pre ++ [s])) || file_on_path fs (pre ++ [s]) rest'
  end.

Definition missing_errno (fs : fsys) (k : key) : errno :=
  if file_on_path fs [] k then ENOTDIR else ENOENT.

(** The keys strictly below [k]. *)
Definition has_children (fs : fsys) (k : key) : bool :=
  existsb (fun '(q, _) => prefixb k q && negb (bool_decide (q = k)))
    (map_to_list (fs_entries fs)).

Definition add_dir (q : key) (fs : fsys) : fsys :=
  {| fs_entries := <[q := EDir false]> (fs_entries fs) |}.

(** ** [existsSync(p)] *)
Definition existsSync (p : string) : st fsys errno bool :=
  fun fs => (Normal (if fs_lookup fs (resolve_key p) is Some _ then true else false), fs).

(** ** [mkdirSync(p, { recursive: true })]

    Every prefix of the path, shortest first: a directory is kept, a
    missing one is created (unless its parent is locked), and a file stops
    the call, with [EEXIST] when it is the target itself and [ENOTDIR]
    when it is an ancestor. *)
Fixpoint mkdirp_from (pre rest : key) (fs : fsys) : completion errno unit * fsys :=
  match rest with
  | [] => (Normal tt, fs)
  | s :: rest' =>
      let q := pre ++ [s] in
      match fs_lookup fs q with
      | Some (EDir _) => mkdirp_from q rest' fs
      | Some (EFile _) =>
          (Thrown (match rest' with [] => EEXIST | _ => ENOTDIR end), fs)
      | None =>
          match fs_lookup fs pre with
          | Some (EDir true) => (Thrown EACCES, fs)
          | _ => mkdirp_from q rest' (add_dir q fs)
          end
      end
  end.

Definition mkdirSync_recursive (p : string) : st fsys errno unit :=
  mkdirp_from [] (resolve_key p).

(** ** [renameSync(src, dst)]: POSIX [rename(2)]

    The entry at [ks] and everything below it moves to [kd]; a file or an
    empty directory at [kd] is replaced. *)
Definition move_subtree (ks kd : key) (m : gmap key entry) : gmap key entry :=
  let inside := filter (fun kv => prefixb ks kv.1 = true) m in
  let outside := filter (fun kv => prefixb ks kv.1 = false) m in
  list_to_map ((fun kv => (kd ++ drop (length ks) kv.1, kv.2)) <$> map_to_list inside)
    ∪ outside.

Definition locked_dir (fs : fsys) (k : key) : bool :=
  match fs_lookup fs k with Some (EDir true) => true | _ => false end.

Definition do_rename (ks kd : key) (fs : fsys) : fsys :=
  {| fs_entries := move_subtree ks kd (delete kd (fs_entries fs)) |}.

Definition renameSync (src dst : string) : st fsys errno unit :=
  fun fs =>
  let ks := resolve_key src in
  let kd := resolve_key dst in
  match fs_lookup fs ks with
  | None => (Thrown (missing_errno fs ks), fs)
  | Some e =>
      match fs_lookup fs (parent kd) with
      | None => (Thrown (missing_errno fs kd), fs)
      | Some (EFile _) => (Thrown ENOTDIR, fs)
      | Some (EDir _) =>
          if bool_decide (ks = kd) then (Normal tt, fs)
          else if bool_decide (ks = []) || bool_decide (kd = []) then (Thrown EBUSY, fs)
          else if prefixb ks kd then (Thrown EINVAL, fs)
          else if prefixb kd ks then (Thrown ENOTEMPTY, fs)
          else if locked_dir fs (parent ks) || locked_dir fs (parent kd) then
            (Thrown EACCES, fs)
          else match e, fs_lookup fs kd with
               | EFile _, Some (EDir _) => (Thrown EISDIR, fs)
               | EDir _, Some (EFile _) => (Thrown ENOTDIR, fs)
               | EDir _, Some (EDir _) =>
                   if has_children fs kd then (Thrown ENOTEMPTY, fs)
                   else (Normal tt, do_rename ks kd fs)
               | _, _ => (Normal tt, do_rename ks kd fs)
               end
      end
  end.

(** ** [readdirSync(p)]: the names of the entries of a directory, in the
    map's order (the order of [readdir] is unspecified). *)
Definition children_names (fs : fsys) (k : key) : list string :=
  omap (fun '(q, _) => match strip_prefix k q with Some [n] => Some n | _ => None end)
    (map_to_list (fs_entries fs)).

Definition readdirSync (p : string) : st fsys errno (list string) :=
  fun fs =>
  let k := resolve_key p in
  match fs_lookup fs k with
  | None => (Thrown (missing_errno fs k), fs)
  | Some (EFile _) => (Thrown ENOTDIR, fs)
  | Some (EDir _) => (Normal (children_names fs k), fs)
  end.

(** ** Well-formedness: the root is a directory and every other entry's
    parent is a directory. *)
Definition fs_wf (fs : fsys) : Prop :=
  is_dir (fs_lookup fs []) = true /\
  forall k e, fs_lookup fs k = Some e -> k <> [] -> is_dir (fs_lookup fs (parent k)) = true.

(** The same check, executable. *)
Definition fs_wfb (fs : fsys) : bool :=
  is_dir (fs_lookup fs []) &&
  forallb (fun kv => bool_decide (kv.1 = []) || is_dir (fs_lookup fs (parent kv.1)))
    (map_to_list (fs_entries fs)).

Lemma fs_wfb_sound fs : fs_wfb fs = true -> fs_wf fs.
Proof.
  unfold fs_wfb. intros [Hr Hall]%andb_true_iff. split; [done|].
  intros k e Hk Hne. rewrite forallb_forall in Hall.
  specialize (Hall (k, e)). simpl in Hall.
  rewrite bool_decide_false in Hall by done. apply Hall.
  by apply list_elem_of_In, elem_of_map_to_list.
Qed.

(** [e] is held at [k0] only: executable form. *)
Definition only_at (fs : fsys) (k0 : key) (e : entry) : bool :=
  forallb (fun kv => bool_decide (kv.2 = e -> kv.1 = k0)) (map_to_list (fs_entries fs)).

Lemma only_at_sound fs k0 e :
  only_at fs k0 e = true -> forall k, fs_lookup fs k = Some e -> k = k0.
Proof.
  unfold only_at. rewrite forallb_forall. intros Hall k Hk.
  specialize (Hall (k, e)). rewrite bool_decide_eq_true in Hall. apply Hall; [|done].
  by apply list_elem_of_In, elem_of_map_to_list.
Qed.

(** Close a hypothesis about a concrete file system by evaluation. *)
Ltac fs_eval :=
  lazymatch goal with
  | |- fs_wf _ => apply fs_wfb_sound; vm_compute; reflexivity
  | |- forall k, fs_lookup _ k = Some _ -> k = _ =>
      apply only_at_sound; vm_compute; reflexivity
  | |- _ => vm_compute; first [ reflexivity | (left; reflexivity) | (right; reflexivity)
                              | congruence ]
  end.

(** ** Prefixes *)

Lemma strip_prefix_Some p k s : strip_prefix p k = Some s <-> k = p ++ s.
Proof.
  revert k. induction p as [|x p IH]; intros [|y k]; simpl.
  - split; congruence.
  - split; congruence.
  - split; [done|intros [=]].
  - destruct (String.eqb_spec x y) as [->|Hne].
    + rewrite IH. split; [by intros ->|by intros [=]].
    + split; [done|intros [=]; congruence].
Qed.

Lemma strip_prefix_app p s : strip_prefix p (p ++ s) = Some s.
Proof. by apply strip_prefix_Some. Qed.

Lemma strip_prefix_refl p : strip_prefix p p = Some [].
Proof. apply strip_prefix_Some. by rewrite app_nil_r. Qed.

Lemma prefixb_spec p k : prefixb p k = true <-> exists s, k = p ++ s.
Proof.
  unfold prefixb. destruct (strip_prefix p k) as [s|] eqn:E.
  - apply strip_prefix_Some in E. split; eauto.
  - split; [done|]. intros [s ->]. by rewrite strip_prefix_app in E.
Qed.

Lemma prefixb_app p s : prefixb p (p ++ s) = true.
Proof. apply prefixb_spec. eauto. Qed.

Lemma prefixb_refl p : prefixb p p = true.
Proof. unfold prefixb. by rewrite strip_prefix_refl. Qed.

#[export] Hint Resolve prefixb_app strip_prefix_app prefixb_refl : fo.
#[export] Hint Rewrite strip_prefix_app prefixb_app : fo_rw.

(** ** The subtree move of [rename] *)

Section MoveSubtree.
Context (ks kd : key) (m : gmap key entry).

Let inside := filter (fun kv : key * entry => prefixb ks kv.1 = true) m.
Let moved := (fun kv : key * entry => (kd ++ drop (length ks) kv.1, kv.2))
               <$> map_to_list inside.

Lemma elem_of_moved k e :
  (k, e) ∈ moved <-> exists s, k = kd ++ s /\ m !! (ks ++ s) = Some e.
Proof.
  unfold moved. rewrite list_elem_of_fmap. split.
  - intros [[k0 e0] [[= -> ->] Hin]].
    apply elem_of_map_to_list, map_lookup_filter_Some in Hin as [Hm Hp].
    simpl in Hp. apply prefixb_spec in Hp as [s ->]. simpl. exists s.
    by rewrite drop_app_length.
  - intros [s [-> Hm]]. exists (ks ++ s, e). simpl.
    rewrite drop_app_length. split; [done|].
    apply elem_of_map_to_list, map_lookup_filter_Some. split; [done|].
    apply prefixb_app.
Qed.

Lemma moved_NoDup : NoDup moved.*1.
Proof.
  unfold moved. rewrite <- list_fmap_compose.
  apply NoDup_fmap_2_strong; [|apply NoDup_map_to_list].
  intros [k1 e1] [k2 e2] H1 H2. simpl. intros Heq.
  apply elem_of_map_to_list, map_lookup_filter_Some in H1 as [Hm1 Hp1].
  apply elem_of_map_to_list, map_lookup_filter_Some in H2 as [Hm2 Hp2].
  simpl in Hp1, Hp2. apply prefixb_spec in Hp1 as [s1 ->]. apply prefixb_spec in Hp2 as [s2 ->].
  simpl in *. rewrite !drop_app_length in Heq.
  apply app_inv_head in Heq as ->. congruence.
Qed.

Lemma lookup_moved k :
  (list_to_map moved : gmap key entry) !! k =
    match strip_prefix kd k with Some s => m !! (ks ++ s) | None => None end.
Proof.
  destruct (strip_prefix kd k) as [s|] eqn:Hs.
  - apply strip_prefix_Some in Hs as ->.
    destruct (m !! (ks ++ s)) as [e|] eqn:Hm.
    + apply elem_of_list_to_map_1; [apply moved_NoDup|].
      apply elem_of_moved. eauto.
    + apply not_elem_of_list_to_map_1. intros Hin.
      apply list_elem_of_fmap in Hin as ([k' e] & Heq & Hin).
      simpl in Heq. subst k'. apply elem_of_moved in Hin as (s' & Hk & Hm').
      apply app_inv_head in Hk as ->. congruence.
  - apply not_elem_of_list_to_map_1. intros Hin.
      apply list_elem_of_fmap in Hin as ([k' e] & Heq & Hin).
    simpl in Heq. subst k'. apply elem_of_moved in Hin as (s' & -> & _).
    by rewrite strip_prefix_app in Hs.
Qed.

Lemma lookup_outside k :
  filter (fun kv : key * entry => prefixb ks kv.1 = false) m !! k =
    if prefixb ks k then None else m !! k.
Proof.
  rewrite map_lookup_filter. destruct (m !! k) as [e|]; simpl; [|by destruct (prefixb ks k)].
  case_guard; destruct (prefixb ks k); simpl in *; congruence.
Qed.

(** What [rename] leaves at each path: the entry that was at the
    corresponding path under [ks] for a path under [kd], nothing under
    [ks], and the old entry elsewhere. *)
Lemma lookup_move_subtree k :
  move_subtree ks kd m !! k =
    match (match strip_prefix kd k with Some s => m !! (ks ++ s) | None => None end) with
    | Some e => Some e
    | None => if prefixb ks k then None else m !! k
    end.
Proof.
  unfold move_subtree. rewrite lookup_union. fold inside moved.
  rewrite lookup_moved, lookup_outside.
  destruct (match strip_prefix kd k with Some s => m !! (ks ++ s) | None => None end);
    simpl; [|by destruct (if prefixb ks k then None else m !! k)].
  by destruct (if prefixb ks k then None else m !! k).
Qed.
End MoveSubtree.

(** ** Parents and well-formedness *)

Lemma parent_snoc k x : parent (k ++ [x]) = k.
Proof. apply removelast_last. Qed.

Lemma parent_app k s : s <> [] -> parent (k ++ s) = k ++ parent s.
Proof. apply removelast_app. Qed.

#[export] Hint Rewrite parent_snoc : fo_rw.

(** Below a non-directory there is nothing. *)
Lemma wf_no_children fs k :
  fs_wf fs -> is_dir (fs_lookup fs k) = false ->
  forall s, s <> [] -> fs_lookup fs (k ++ s) = None.
Proof.
  intros [_ Hwf] Hk s. induction s as [|x s IH] using rev_ind; [done|].
  intros _. destruct (fs_lookup fs (k ++ s ++ [x])) as [e|] eqn:He; [|done].
  exfalso. apply Hwf in He; [|by destruct k, s].
  rewrite app_assoc, parent_snoc in He.
  destruct s as [|y s]; [rewrite app_nil_r in He; congruence|].
  rewrite IH in He by done. done.
Qed.

(** Every proper ancestor of an entry is a directory. *)
Lemma wf_ancestors fs k s e :
  fs_wf fs -> fs_lookup fs (k ++ s) = Some e -> s <> [] -> is_dir (fs_lookup fs k) = true.
Proof.
  intros Hwf He Hs. destruct (is_dir (fs_lookup fs k)) eqn:Hk; [done|].
  by rewrite (wf_no_children fs k Hwf Hk s Hs) in He.
Qed.

Lemma is_dir_insert_dir (m : gmap key entry) q b k :
  is_dir (m !! k) = true -> is_dir (<[q := EDir b]> m !! k) = true.
Proof. rewrite lookup_insert. by case_decide. Qed.

Lemma lookup_add_dir fs q k :
  fs_lookup (add_dir q fs) k = if decide (q = k) then Some (EDir false) else fs_lookup fs k.
Proof. unfold add_dir, fs_lookup. cbn [fs_entries]. apply lookup_insert. Qed.

Lemma lookup_add_dir_eq fs q : fs_lookup (add_dir q fs) q = Some (EDir false).
Proof. rewrite lookup_add_dir. by case_decide. Qed.

#[export] Hint Rewrite lookup_add_dir_eq : fo_rw.

Lemma add_dir_wf fs q :
  fs_wf fs -> is_dir (fs_lookup fs (parent q)) = true -> fs_wf (add_dir q fs).
Proof.
  intros [Hroot Hwf] Hq. unfold fs_wf, add_dir, fs_lookup in *; simpl. split.
  - by apply is_dir_insert_dir.
  - intros k e Hk Hne. simpl in Hk |- *. apply is_dir_insert_dir.
    rewrite lookup_insert in Hk. case_decide; [subst; done|]. eauto.
Qed.

Lemma mkdirp_from_wf pre rest fs :
  fs_wf fs -> is_dir (fs_lookup fs pre) = true -> fs_wf (mkdirp_from pre rest fs).2.
Proof.
  revert pre fs. induction rest as [|x rest IH]; intros pre fs Hwf Hpre; simpl; [done|].
  destruct (fs_lookup fs (pre ++ [x])) as [[c|b]|] eqn:Hq; simpl; [done| |].
  - apply IH; [done|]. by rewrite Hq.
  - destruct (fs_lookup fs pre) as [[|[]]|] eqn:Hp; simpl; try done;
    (apply IH; [apply add_dir_wf; [done|]; by rewrite parent_snoc, Hp|];
     by autorewrite with fo_rw).
Qed.

(** [mkdirSync] keeps the file system well formed, also when it throws. *)
Lemma mkdirSync_wf p fs : fs_wf fs -> fs_wf (mkdirSync_recursive p fs).2.
Proof. intros Hwf. apply mkdirp_from_wf; [done|]. apply Hwf. Qed.

(** ** Preservation by [rename] *)

Lemma prefixb_trans a b c : prefixb a b = true -> prefixb b c = true -> prefixb a c = true.
Proof.
  rewrite !prefixb_spec. intros [s1 ->] [s2 ->]. exists (s1 ++ s2). by rewrite app_assoc.
Qed.

Lemma strip_prefix_length p k s : strip_prefix p k = Some s -> length p <= length k.
Proof. intros ->%strip_prefix_Some. rewrite length_app. lia. Qed.

Lemma parent_snoc_eq k : k <> [] -> exists x, k = parent k ++ [x].
Proof. intros Hk. exists (List.last k ""). by apply app_removelast_last. Qed.

Lemma parent_length k : k <> [] -> length (parent k) < length k.
Proof.
  intros Hk. destruct (parent_snoc_eq k Hk) as [x Hx].
  rewrite Hx at 2. rewrite length_app. simpl. lia.
Qed.

Lemma prefixb_parent a k : k <> [] -> prefixb a (parent k) = true -> prefixb a k = true.
Proof.
  intros Hk Ha. destruct (parent_snoc_eq k Hk) as [x Hx].
  eapply prefixb_trans; [exact Ha|]. rewrite Hx at 2. apply prefixb_app.
Qed.

Lemma has_children_false fs k :
  has_children fs k = false -> forall s, s <> [] -> fs_lookup fs (k ++ s) = None.
Proof.
  intros H s Hs. destruct (fs_lookup fs (k ++ s)) as [e|] eqn:He; [|done].
  exfalso. apply not_true_iff_false in H. apply H, existsb_exists.
  exists (k ++ s, e). split.
  - by apply list_elem_of_In, elem_of_map_to_list.
  - rewrite prefixb_app. simpl. rewrite bool_decide_false; [done|].
    intros Heq. apply Hs. by apply (app_inv_head k); rewrite app_nil_r.
Qed.

Section DoRename.
Context (fs : fsys) (ks kd : key) (e : entry).
Hypotheses (Hwf : fs_wf fs) (Hks : fs_lookup fs ks = Some e)
  (Hpd : is_dir (fs_lookup fs (parent kd)) = true)
  (Hks0 : ks <> []) (Hkd0 : kd <> [])
  (Hin : prefixb ks kd = false) (Hout : prefixb kd ks = false)
  (Hleaf : forall s, s <> [] -> fs_lookup fs (kd ++ s) = None).

Let m0 := delete kd (fs_entries fs).

Lemma do_rename_lookup k :
  fs_lookup (do_rename ks kd fs) k =
    match (match strip_prefix kd k with Some s => m0 !! (ks ++ s) | None => None end) with
    | Some e => Some e
    | None => if prefixb ks k then None else m0 !! k
    end.
Proof. apply lookup_move_subtree. Qed.

(** Away from [ks] and [kd], nothing changes. *)
Lemma do_rename_lookup_away j :
  strip_prefix kd j = None -> prefixb ks j = false ->
  fs_lookup (do_rename ks kd fs) j = fs_lookup fs j.
Proof.
  intros Hj1 Hj2. rewrite do_rename_lookup, Hj1, Hj2.
  unfold m0, fs_lookup. rewrite lookup_delete_ne; [done|].
  intros <-. by rewrite strip_prefix_refl in Hj1.
Qed.

Lemma do_rename_parent_kd : is_dir (fs_lookup (do_rename ks kd fs) (parent kd)) = true.
Proof.
  rewrite do_rename_lookup_away; [done| |].
  - destruct (strip_prefix kd (parent kd)) eqn:E; [|done].
    apply strip_prefix_length in E. pose proof (parent_length kd Hkd0). lia.
  - destruct (prefixb ks (parent kd)) eqn:E; [|done].
    apply prefixb_parent in E; congruence.
Qed.

Lemma do_rename_wf : fs_wf (do_rename ks kd fs).
Proof.
  destruct Hwf as [Hroot Hpar]. split.
  - rewrite do_rename_lookup_away; [done|by destruct kd|].
    destruct (prefixb ks []) eqn:E; [|done].
    apply prefixb_spec in E as [? E]. by destruct ks.
  - intros k e' Hk Hk0. rewrite do_rename_lookup in Hk.
    destruct (strip_prefix kd k) as [s|] eqn:Hs;
      [apply strip_prefix_Some in Hs as ->; destruct (m0 !! (ks ++ s)) as [e1|] eqn:Hm|].
    + (* a moved entry *)
      destruct (decide (s = [])) as [->|Hs0].
      { rewrite app_nil_r. apply do_rename_parent_kd. }
      unfold m0 in Hm. apply lookup_delete_Some in Hm as [Hne Hm].
      assert (Hd : is_dir (fs_lookup fs (ks ++ parent s)) = true).
      { rewrite <- parent_app by done. eapply Hpar; [exact Hm|by destruct ks]. }
      rewrite parent_app, do_rename_lookup, strip_prefix_app by done.
      unfold m0. rewrite lookup_delete_ne.
      * unfold fs_lookup in Hd. destruct (fs_entries fs !! (ks ++ parent s)); done.
      * intros Heq. rewrite Heq, prefixb_app in Hin. done.
    + (* an entry under [kd] that was not moved: there is none *)
      destruct (prefixb ks (kd ++ s)); [done|]. unfold m0 in Hk.
      apply lookup_delete_Some in Hk as [Hne Hk].
      destruct (decide (s = [])) as [->|Hs0]; [by rewrite app_nil_r in Hne|].
      pose proof (Hleaf s Hs0) as Hl. unfold fs_lookup in Hl. congruence.
    + (* an entry away from [kd] *)
      destruct (prefixb ks k) eqn:Hp; [done|]. unfold m0 in Hk.
      apply lookup_delete_Some in Hk as [Hne Hk].
      destruct (parent_snoc_eq k Hk0) as [x Hx].
      rewrite do_rename_lookup_away.
      * eapply Hpar; [exact Hk|done].
      * destruct (strip_prefix kd (parent k)) as [s'|] eqn:Hs'; [|done].
        apply strip_prefix_Some in Hs'. exfalso.
        rewrite Hx, Hs', <- app_assoc in Hk.
        pose proof (Hleaf (s' ++ [x]) ltac:(by destruct s')) as Hl.
        unfold fs_lookup in Hl. congruence.
      * destruct (prefixb ks (parent k)) eqn:E; [|done].
        apply prefixb_parent in E; congruence.
Qed.
End DoRename.

Lemma rename_target_leaf fs kd e :
  fs_wf fs ->
  match e, fs_lookup fs kd with
  | EDir _, Some (EDir _) => has_children fs kd = false
  | _, Some (EDir _) => False
  | EDir _, Some (EFile _) => False
  | _, _ => True
  end ->
  forall s, s <> [] -> fs_lookup fs (kd ++ s) = None.
Proof.
  intros Hwf Hk s Hs.
  destruct (fs_lookup fs kd) as [[c|b]|] eqn:Hkd.
  - apply wf_no_children; [done|by rewrite Hkd|done].
  - destruct e; [done|]. by apply has_children_false.
  - apply wf_no_children; [done|by rewrite Hkd|done].
Qed.

(** [renameSync] keeps the file system well formed, also when it throws. *)
Lemma renameSync_wf src dst fs : fs_wf fs -> fs_wf (renameSync src dst fs).2.
Proof.
  intros Hwf. unfold renameSync.
  destruct (fs_lookup fs (resolve_key src)) as [e|] eqn:Hks; [|done].
  destruct (fs_lookup fs (parent (resolve_key dst))) as [[c|b]|] eqn:Hpd; try done.
  repeat (case_bool_decide; [done|]).
  destruct (prefixb _ (resolve_key dst)) eqn:Hin; [done|].
  destruct (prefixb (resolve_key dst) _) eqn:Hout; [done|].
  simpl. destruct (locked_dir _ _ || locked_dir _ _); [done|].
  assert (Hleaf := rename_target_leaf fs (resolve_key dst) e Hwf).
  destruct e as [c'|b'], (fs_lookup fs (resolve_key dst)) as [[c''|b'']|] eqn:Hkd;
    try done;
    try (destruct (has_children fs _) eqn:Hch; [done|]);
    simpl; eapply do_rename_wf; eauto; by rewrite Hpd.
Qed.

(** ** What the primitives do *)

Lemma mkdirp_from_existing pre rest fs :
  fs_wf fs -> is_dir (fs_lookup fs (pre ++ rest)) = true ->
  mkdirp_from pre rest fs = (Normal tt, fs).
Proof.
  intros Hwf. revert pre. induction rest as [|x rest IH]; intros pre Hd; [done|].
  simpl. assert (Hq : is_dir (fs_lookup fs (pre ++ [x])) = true).
  { destruct rest as [|y rest]; [done|].
    destruct (fs_lookup fs (pre ++ x :: y :: rest)) eqn:E; [|done].
    eapply (wf_ancestors fs (pre ++ [x]) (y :: rest)); [done| |done].
    by rewrite <- app_assoc. }
  destruct (fs_lookup fs (pre ++ [x])) as [[]|]; try done.
  apply IH. by rewrite <- app_assoc.
Qed.

(** A recursive [mkdir] of an existing directory changes nothing. *)
Lemma mkdirSync_existing p fs :
  fs_wf fs -> is_dir (fs_lookup fs (resolve_key p)) = true ->
  mkdirSync_recursive p fs = (Normal tt, fs).
Proof. intros. by apply mkdirp_from_existing. Qed.

(** [mkdir] only adds directories where there was nothing. *)
Lemma mkdirp_from_adds_dirs pre rest fs k :
  fs_lookup (mkdirp_from pre rest fs).2 k = fs_lookup fs k \/
  (fs_lookup fs k = None /\ fs_lookup (mkdirp_from pre rest fs).2 k = Some (EDir false)).
Proof.
  revert pre fs. induction rest as [|x rest IH]; intros pre fs; simpl; [by left|].
  destruct (fs_lookup fs (pre ++ [x])) as [[]|] eqn:Hq; simpl; [by left|apply IH|].
  destruct (fs_lookup fs pre) as [[|[]]|]; simpl; try (by left);
  (destruct (IH (pre ++ [x]) (add_dir (pre ++ [x]) fs)) as [H|[H1 H2]];
   rewrite lookup_add_dir in *; case_decide; subst; auto; congruence).
Qed.

Lemma mkdirp_from_normal pre rest fs fs' :
  mkdirp_from pre rest fs = (Normal tt, fs') -> is_dir (fs_lookup fs pre) = true ->
  is_dir (fs_lookup fs' (pre ++ rest)) = true.
Proof.
  revert pre fs. induction rest as [|x rest IH]; intros pre fs H Hpre.
  - simpl in H. injection H as <-. by rewrite app_nil_r.
  - replace (pre ++ x :: rest) with ((pre ++ [x]) ++ rest) by by rewrite <- app_assoc.
    simpl in H. destruct (fs_lookup fs (pre ++ [x])) as [[]|] eqn:Hq; [done| |].
    + apply (IH _ fs H). by rewrite Hq.
    + destruct (fs_lookup fs pre) as [[|[]]|]; try done;
      (apply (IH _ _ H); by autorewrite with fo_rw).
Qed.

(** After a recursive [mkdir] that returns, the directory exists. *)
Lemma mkdirSync_normal p fs fs' :
  fs_wf fs -> mkdirSync_recursive p fs = (Normal tt, fs') ->
  is_dir (fs_lookup fs' (resolve_key p)) = true.
Proof. intros [Hr _] H. apply (mkdirp_from_normal [] _ fs); done. Qed.

(** Creating one missing directory below an existing one. *)
Lemma mkdirp_from_child pre k x fs :
  fs_wf fs -> is_dir (fs_lookup fs (pre ++ k)) = true ->
  fs_lookup fs (pre ++ k ++ [x]) = None ->
  mkdirp_from pre (k ++ [x]) fs =
    if locked_dir fs (pre ++ k) then (Thrown EACCES, fs)
    else (Normal tt, add_dir (pre ++ k ++ [x]) fs).
Proof.
  intros Hwf. revert pre. induction k as [|y k IH]; intros pre Hd Hn; simpl.
  - simpl in Hn. rewrite app_nil_r in Hd |- *. rewrite Hn. unfold locked_dir.
    destruct (fs_lookup fs pre) as [[|[]]|]; done.
  - assert (Hy : is_dir (fs_lookup fs (pre ++ [y])) = true).
    { destruct k as [|z k]; [done|].
      destruct (fs_lookup fs (pre ++ y :: z :: k)) eqn:E; [|done].
      eapply (wf_ancestors fs (pre ++ [y]) (z :: k)); [done| |done].
      by rewrite <- app_assoc. }
    destruct (fs_lookup fs (pre ++ [y])) as [[]|]; try done.
    rewrite IH; rewrite <- ?app_assoc; done.
Qed.

Lemma move_subtree_leaf ks kd m e :
  m !! ks = Some e -> (forall s, s <> [] -> m !! (ks ++ s) = None) ->
  move_subtree ks kd m = <[kd := e]> (delete ks m).
Proof.
  intros Hks Hleaf. apply map_eq. intros k. rewrite lookup_move_subtree.
  assert (Hout : (if prefixb ks k then None else m !! k) = delete ks m !! k).
  { destruct (prefixb ks k) eqn:Hp.
    - apply prefixb_spec in Hp as [[|y s] ->].
      + by rewrite app_nil_r, lookup_delete_eq.
      + rewrite lookup_delete_ne; [by rewrite Hleaf|].
        intros Heq. apply (f_equal length) in Heq. rewrite length_app in Heq. simpl in Heq. lia.
    - rewrite lookup_delete_ne; [done|]. intros <-.
      by rewrite prefixb_refl in Hp. }
  destruct (strip_prefix kd k) as [[|y s]|] eqn:Hs.
  - apply strip_prefix_Some in Hs. rewrite app_nil_r in Hs. subst k.
    by rewrite app_nil_r, Hks, lookup_insert_eq.
  - apply strip_prefix_Some in Hs as ->. rewrite Hleaf by done.
    rewrite lookup_insert_ne; [done|]. intros Heq.
    apply (f_equal length) in Heq. rewrite length_app in Heq. simpl in Heq. lia.
  - rewrite lookup_insert_ne; [done|]. intros <-. by rewrite strip_prefix_refl in Hs.
Qed.

Lemma wf_file_not_prefix fs ks kd c :
  fs_wf fs -> fs_lookup fs ks = Some (EFile c) -> ks <> kd ->
  is_dir (fs_lookup fs (parent kd)) = true -> prefixb ks kd = false.
Proof.
  intros Hwf Hks Hne Hpd. destruct (prefixb ks kd) eqn:Hp; [|done].
  apply prefixb_spec in Hp as [s ->]. exfalso.
  destruct (decide (s = [])) as [->|Hs]; [apply Hne; by rewrite app_nil_r|].
  rewrite parent_app in Hpd by done.
  destruct (decide (parent s = [])) as [Hps|Hps].
  - rewrite Hps, app_nil_r, Hks in Hpd. done.
  - rewrite (wf_no_children fs ks Hwf) in Hpd; [done| |done]. by rewrite Hks.
Qed.

Lemma wf_dir_ancestor fs ks kd e :
  fs_wf fs -> fs_lookup fs ks = Some e -> ks <> kd ->
  prefixb kd ks = true -> is_dir (fs_lookup fs kd) = true.
Proof.
  intros Hwf Hks Hne Hp. apply prefixb_spec in Hp as [s ->].
  eapply wf_ancestors; [done|exact Hks|]. intros ->. apply Hne. by rewrite app_nil_r.
Qed.

(** [renameSync] of a file to a free name, or over another file, in an
    unlocked place: the file is at the new name, the old name is free, and
    nothing else changed. *)
Lemma renameSync_file src dst fs c b :
  fs_wf fs ->
  fs_lookup fs (resolve_key src) = Some (EFile c) ->
  fs_lookup fs (parent (resolve_key dst)) = Some (EDir b) ->
  is_dir (fs_lookup fs (resolve_key dst)) = false ->
  resolve_key src <> resolve_key dst ->
  locked_dir fs (parent (resolve_key src)) = false ->
  b = false ->
  renameSync src dst fs =
    (Normal tt, {| fs_entries := <[resolve_key dst := EFile c]>
                                   (delete (resolve_key src) (fs_entries fs)) |}).
Proof.
  intros Hwf Hks Hpd Hkd Hne Hls ->. unfold renameSync. rewrite Hks, Hpd.
  set (ks := resolve_key src) in *. set (kd := resolve_key dst) in *.
  assert (Hks0 : ks <> []) by (intros E; destruct Hwf as [Hr _]; by rewrite <- E, Hks in Hr).
  assert (Hkd0 : kd <> []) by (intros E; destruct Hwf as [Hr _]; rewrite E in Hkd; congruence).
  rewrite bool_decide_false, bool_decide_false, bool_decide_false by done. simpl.
  assert (Hin : prefixb ks kd = false).
  { apply (wf_file_not_prefix fs ks kd c Hwf Hks Hne). by rewrite Hpd. }
  rewrite Hin.
  destruct (prefixb kd ks) eqn:Hout.
  { apply (wf_dir_ancestor fs ks kd (EFile c)) in Hout; [|done|done|done]. congruence. }
  unfold locked_dir at 2. rewrite Hls, Hpd. simpl.
  assert (Hres : do_rename ks kd fs =
    {| fs_entries := <[kd := EFile c]> (delete ks (fs_entries fs)) |}).
  { unfold do_rename. f_equal. rewrite (move_subtree_leaf ks kd _ (EFile c)).
    - by rewrite delete_delete, insert_delete_eq.
    - by rewrite lookup_delete_ne.
    - intros s Hs. rewrite lookup_delete_ne.
      + apply (wf_no_children fs ks Hwf); [by rewrite Hks|done].
      + intros Heq. by rewrite Heq, prefixb_app in Hin. }
  destruct (fs_lookup fs kd) as [[c'|b']|]; by rewrite ?Hres.
Qed.

(** Renaming a path to itself succeeds and changes nothing. *)
Lemma renameSync_same src dst fs e b :
  fs_lookup fs (resolve_key src) = Some e ->
  fs_lookup fs (parent (resolve_key dst)) = Some (EDir b) ->
  resolve_key src = resolve_key dst ->
  renameSync src dst fs = (Normal tt, fs).
Proof.
  intros Hks Hpd Heq. unfold renameSync. rewrite Hks, Hpd.
  by rewrite bool_decide_true.
Qed.

(** A missing source throws and changes nothing. *)
Lemma renameSync_missing src dst fs :
  fs_lookup fs (resolve_key src) = None ->
  renameSync src dst fs = (Thrown (missing_errno fs (resolve_key src)), fs).
Proof. intros Hks. unfold renameSync. by rewrite Hks. Qed.

(** Whatever happens, [renameSync] throws or returns; when it throws, the
    file system is unchanged. *)
Lemma renameSync_thrown_unchanged src dst fs err fs' :
  renameSync src dst fs = (Thrown err, fs') -> fs' = fs.
Proof.
  unfold renameSync. repeat case_match; intros Hr; by inversion Hr.
Qed.

End FileSystem.
