(* ===== verification/Organizer.v ===== *)
(** * The organizer: [createDirectoryIfNeeded] and [organizeFile]

    index.js lines 10-15 and 38-66.  The process state [proc] is the file
    system and the console: every [console.log] / [console.error] appends
    one [log_line] (its stream, whether it starts with a timestamp, and its
    message).  Both functions are computations of [st proc errno]: an error
    thrown by an [fs] call and not caught propagates to the caller.  The
    watched directory [pathToWatch] (line 7) is a parameter of the section,
    so that every theorem holds for any root. *)

From Stdlib Require Import Ascii String.
From S2P Require Import Prelude Path Classifier FileSystem.
Import Classifier FileSystem.

Local Open Scope list_scope.

Module Organizer.

Inductive stream := Stdout | Stderr.

#[export] Instance stream_eq_dec : EqDecision stream.
Proof. solve_decision. Defined.

(** The messages of the program's log lines, by the line that prints them. *)
Inductive message :=
| MsgCreatedDir (dirPath : string)               (* line 13 *)
| MsgMoved (filePath destPath : string)           (* line 62 *)
| MsgMoveError (filePath : string) (err : errno)  (* line 64 *)
| MsgReadDirError (dirPath : string) (err : errno) (* line 73 *)
| MsgFileAdded (path : string)                    (* line 97 *)
| MsgFileChanged (path : string)                  (* line 103 *)
| MsgFileRemoved (path : string)                  (* line 107 *)
| MsgDirAdded (path : string)                     (* line 110 *)
| MsgDirRemoved (path : string)                   (* line 113 *)
| MsgWatcherError (error : string)                (* line 115 *)
| MsgReady (root : string)                        (* line 116 *)
| MsgWatching (root : string).                    (* line 118 *)

#[export] Instance message_eq_dec : EqDecision message.
Proof. solve_decision. Defined.

Record log_line := mkline { ll_stream : stream; ll_stamped : bool; ll_msg : message }.

Record proc := mkproc { p_fs : fsys; p_log : list log_line }.

(** An [fs] call on the process state. *)
Definition lift_fs {A} (c : st fsys errno A) : st proc errno A :=
  fun s => let '(r, fs') := c (p_fs s) in (r, mkproc fs' (p_log s)).

(** [console.log(`[${format(new Date(), ...)}] ...`)] *)
Definition console_log (m : message) : st proc errno unit :=
  modify (fun s => mkproc (p_fs s) (p_log s ++ [mkline Stdout true m])).

(** [console.error(`[${format(new Date(), ...)}] ...`, err)] *)
Definition console_error (m : message) : st proc errno unit :=
  modify (fun s => mkproc (p_fs s) (p_log s ++ [mkline Stderr true m])).

Section WithRoot.
Context (pathToWatch : string).

(** Lines 10-15. *)
Definition createDirectoryIfNeeded (dirPath : string) : st proc errno unit :=
  b <- lift_fs (existsSync dirPath) ;;
  if negb b then
    lift_fs (mkdirSync_recursive dirPath) ;;
    console_log (MsgCreatedDir dirPath)
  else ret tt.

(** Lines 38-66: [!filePath] is the empty string (the only falsy string);
    the [try] covers [renameSync] and the success message, not the
    directory creation. *)
Definition organizeFile (filePath : string) : st proc errno unit :=
  if String.eqb filePath "" then ret tt else
  let fileName := basename filePath in
  let fileExtension := slice1 (extname filePath) in
  match getFolderNameBasedOnExtension fileExtension with
  | None => ret tt
  | Some folderName =>
      let targetDir := join pathToWatch (folder_name folderName) in
      createDirectoryIfNeeded targetDir ;;
      let destPath := join targetDir fileName in
      try_catch
        (lift_fs (renameSync filePath destPath) ;;
         console_log (MsgMoved filePath destPath))
        (fun err => console_error (MsgMoveError filePath err))
  end.

(** The directory a classified file goes to, and its destination. *)
Definition targetDir_of (f : folder) : string := join pathToWatch (folder_name f).
Definition destPath_of (f : folder) (filePath : string) : string :=
  join (targetDir_of f) (basename filePath).
(** The keys of the watched root, of a folder and of a destination. *)
Definition root_key : key := resolve_key pathToWatch.
Definition folder_key (f : folder) : key := root_key ++ [folder_name f].
Definition dest_key (f : folder) (filePath : string) : key :=
  root_key ++ [folder_name f; basename filePath].
End WithRoot.

(** ** Lemmas *)

Lemma folder_name_plain f : plain_seg (folder_name f) = true.
Proof. by destruct f. Qed.

Lemma classified_extname p f :
  getFolderNameBasedOnExtension (slice1 (extname p)) = Some f -> extname p <> "".
Proof. intros H E. rewrite E in H. done. Qed.

Lemma classified_nonempty p f :
  getFolderNameBasedOnExtension (slice1 (extname p)) = Some f -> p <> "".
Proof. intros H ->. done. Qed.

Lemma key_targetDir root f : resolve_key (targetDir_of root f) = folder_key root f.
Proof. apply resolve_key_join, folder_name_plain. Qed.

Lemma key_destPath root f p :
  extname p <> "" -> resolve_key (destPath_of root f p) = dest_key root f p.
Proof.
  intros He. unfold destPath_of, dest_key.
  rewrite resolve_key_join by (by apply extname_plain_basename).
  rewrite key_targetDir. unfold folder_key. by rewrite <- app_assoc.
Qed.

Lemma parent_dest_key root f p : parent (dest_key root f p) = folder_key root f.
Proof.
  unfold dest_key, folder_key. change [folder_name f; basename p] with
    ([folder_name f] ++ [basename p]). by rewrite app_assoc, parent_snoc.
Qed.

Lemma dest_key_ne_folder_key root f p : dest_key root f p <> folder_key root f.
Proof.
  unfold dest_key, folder_key. intros H. apply (f_equal length) in H.
  rewrite !length_app in H. simpl in H. lia.
Qed.

#[export] Hint Rewrite key_targetDir parent_dest_key : fo_rw.

Lemma lift_fs_run {A} (c : st fsys errno A) s :
  lift_fs c s = ((c (p_fs s)).1, mkproc (c (p_fs s)).2 (p_log s)).
Proof. unfold lift_fs. by destruct (c (p_fs s)). Qed.

Section Lemmas.
Context (root : string).

(** [createDirectoryIfNeeded] on a folder of an existing root: nothing
    when the folder is a directory, otherwise one [mkdir] and one line. *)
Lemma createDirectoryIfNeeded_folder f s :
  fs_wf (p_fs s) -> is_dir (fs_lookup (p_fs s) (root_key root)) = true ->
  fs_lookup (p_fs s) (folder_key root f) = None \/
    is_dir (fs_lookup (p_fs s) (folder_key root f)) = true ->
  createDirectoryIfNeeded (targetDir_of root f) s =
    if is_dir (fs_lookup (p_fs s) (folder_key root f)) then (Normal tt, s)
    else if locked_dir (p_fs s) (root_key root) then (Thrown EACCES, s)
    else (Normal tt, mkproc (add_dir (folder_key root f) (p_fs s))
                       (p_log s ++ [mkline Stdout true (MsgCreatedDir (targetDir_of root f))])).
Proof.
  intros Hwf Hr Ht. unfold createDirectoryIfNeeded, bind, ret, console_log, modify.
  rewrite !lift_fs_run. unfold existsSync. simpl. rewrite key_targetDir.
  destruct Ht as [Hn|Hd].
  - rewrite Hn. simpl. unfold mkdirSync_recursive. rewrite key_targetDir.
    unfold folder_key in *.
    pose proof (mkdirp_from_child [] (root_key root) (folder_name f) (p_fs s) Hwf Hr Hn) as Hm.
    simpl in Hm. rewrite lift_fs_run. simpl. rewrite Hm. destruct (locked_dir (p_fs s) (root_key root)); [by destruct s|done].
  - destruct (fs_lookup (p_fs s) (folder_key root f)) as [[]|]; [done| |done].
    simpl. by destruct s.
Qed.

Lemma locked_dir_add_dir q fs k : q <> k -> locked_dir (add_dir q fs) k = locked_dir fs k.
Proof. intros Hne. unfold locked_dir. rewrite lookup_add_dir. by case_decide. Qed.

Lemma wf_parent_dir fs k e :
  fs_wf fs -> fs_lookup fs k = Some e -> k <> [] -> is_dir (fs_lookup fs (parent k)) = true.
Proof. intros [_ Hp] Hk Hne. eauto. Qed.

Lemma wf_file_nonroot fs k c : fs_wf fs -> fs_lookup fs k = Some (EFile c) -> k <> [].
Proof. intros [Hr _] Hk ->. by rewrite Hk in Hr. Qed.

(** The [try] block of lines 59-65 when the rename can happen. *)
Lemma organize_rename_step f p c s h :
  extname p <> "" -> fs_wf (p_fs s) ->
  fs_lookup (p_fs s) (resolve_key p) = Some (EFile c) ->
  fs_lookup (p_fs s) (folder_key root f) = Some (EDir false) ->
  is_dir (fs_lookup (p_fs s) (dest_key root f p)) = false ->
  resolve_key p <> dest_key root f p ->
  locked_dir (p_fs s) (parent (resolve_key p)) = false ->
  try_catch (lift_fs (renameSync p (destPath_of root f p)) ;;
             console_log (MsgMoved p (destPath_of root f p))) h s =
    (Normal tt, mkproc (mkfs (<[dest_key root f p := EFile c]>
                                (delete (resolve_key p) (fs_entries (p_fs s)))))
                  (p_log s ++ [mkline Stdout true (MsgMoved p (destPath_of root f p))])).
Proof.
  intros He Hwf Hks Hf Hkd Hne Hl. unfold try_catch, bind, console_log, modify.
  rewrite lift_fs_run.
  rewrite (renameSync_file p (destPath_of root f p) (p_fs s) c false);
    rewrite ?key_destPath, ?parent_dest_key; try done.
Qed.

(** The run of [organizeFile] on a file it can move. *)
Lemma organizeFile_run_moved f p c s :
  fs_wf (p_fs s) ->
  getFolderNameBasedOnExtension (slice1 (extname p)) = Some f ->
  fs_lookup (p_fs s) (resolve_key p) = Some (EFile c) ->
  fs_lookup (p_fs s) (root_key root) = Some (EDir false) ->
  fs_lookup (p_fs s) (folder_key root f) = None \/
    fs_lookup (p_fs s) (folder_key root f) = Some (EDir false) ->
  is_dir (fs_lookup (p_fs s) (dest_key root f p)) = false ->
  resolve_key p <> dest_key root f p ->
  locked_dir (p_fs s) (parent (resolve_key p)) = false ->
  let created := negb (is_dir (fs_lookup (p_fs s) (folder_key root f))) in
  let fs1 := if created then add_dir (folder_key root f) (p_fs s) else p_fs s in
  organizeFile root p s =
    (Normal tt,
     mkproc (mkfs (<[dest_key root f p := EFile c]> (delete (resolve_key p) (fs_entries fs1))))
       (p_log s ++
        (if created then [mkline Stdout true (MsgCreatedDir (targetDir_of root f))] else []) ++
        [mkline Stdout true (MsgMoved p (destPath_of root f p))])).
Proof.
  intros Hwf Hcl Hks Hr Ht Hkd Hne Hl created fs1.
  pose proof (classified_extname p f Hcl) as He.
  unfold organizeFile. rewrite (proj2 (String.eqb_neq p "")) by (by eapply classified_nonempty).
  rewrite Hcl. fold (targetDir_of root f). fold (destPath_of root f p).
  unfold bind at 1. rewrite createDirectoryIfNeeded_folder;
    [|done|by rewrite Hr|by destruct Ht as [->| ->]; auto].
  subst created fs1. destruct Ht as [Hn|Hd].
  - rewrite Hn. unfold locked_dir at 1. rewrite Hr. simpl.
    assert (Hfk : folder_key root f <> resolve_key p) by congruence.
    rewrite (organize_rename_step f p c); simpl; try done.
    + by rewrite <- app_assoc.
    + apply add_dir_wf; [done|]. unfold folder_key. autorewrite with fo_rw. by rewrite Hr.
    + rewrite lookup_add_dir. by case_decide.
    + by autorewrite with fo_rw.
    + rewrite lookup_add_dir. case_decide as Heq; [|done].
      by destruct (dest_key_ne_folder_key root f p).
    + rewrite locked_dir_add_dir; [done|]. intros Heq.
      pose proof (wf_parent_dir _ _ _ Hwf Hks (wf_file_nonroot _ _ _ Hwf Hks)) as Hp.
      rewrite <- Heq, Hn in Hp. done.
  - rewrite Hd. simpl. by rewrite (organize_rename_step f p c).
Qed.

(** C5. [organizeFile] on a classified file of an existing, writable
    root: the folder [root/<folder>] is created when missing (with its
    log line), the file moves to [root/<folder>/<basename>] with its
    contents, its old name is free, one [Moved] line is logged, and
    nothing else changes.  A file already at the destination name is
    replaced (C9). *)
Theorem organizeFile_moves f p c s :
  fs_wf (p_fs s) ->
  getFolderNameBasedOnExtension (slice1 (extname p)) = Some f ->
  fs_lookup (p_fs s) (resolve_key p) = Some (EFile c) ->
  fs_lookup (p_fs s) (root_key root) = Some (EDir false) ->
  fs_lookup (p_fs s) (folder_key root f) = None \/
    fs_lookup (p_fs s) (folder_key root f) = Some (EDir false) ->
  is_dir (fs_lookup (p_fs s) (dest_key root f p)) = false ->
  resolve_key p <> dest_key root f p ->
  locked_dir (p_fs s) (parent (resolve_key p)) = false ->
  let created := negb (is_dir (fs_lookup (p_fs s) (folder_key root f))) in
  let fs1 := if created then add_dir (folder_key root f) (p_fs s) else p_fs s in
  organizeFile root p s =
    (Normal tt,
     mkproc (mkfs (<[dest_key root f p := EFile c]> (delete (resolve_key p) (fs_entries fs1))))
       (p_log s ++
        (if created then [mkline Stdout true (MsgCreatedDir (targetDir_of root f))] else []) ++
        [mkline Stdout true (MsgMoved p (destPath_of root f p))])).
Proof. exact (organizeFile_run_moved f p c s). Qed.

Lemma createDirectoryIfNeeded_run d s :
  createDirectoryIfNeeded d s =
    match fs_lookup (p_fs s) (resolve_key d) with
    | Some _ => (Normal tt, s)
    | None =>
        match mkdirSync_recursive d (p_fs s) with
        | (Normal _, fs') => (Normal tt, mkproc fs' (p_log s ++ [mkline Stdout true (MsgCreatedDir d)]))
        | (Thrown e, fs') => (Thrown e, mkproc fs' (p_log s))
        end
    end.
Proof.
  unfold createDirectoryIfNeeded, bind, ret, console_log, modify.
  rewrite lift_fs_run. simpl. destruct (fs_lookup (p_fs s) (resolve_key d)); simpl.
  - by destruct s.
  - rewrite lift_fs_run. simpl. by destruct (mkdirSync_recursive d (p_fs s)) as [[] ?].
Qed.

(** C10. [createDirectoryIfNeeded] is idempotent: after a call that
    returns, a second call returns, changes nothing and logs nothing; the
    first call logs one [Created] line or none. *)
Theorem createDirectoryIfNeeded_idempotent d s s1 :
  fs_wf (p_fs s) -> createDirectoryIfNeeded d s = (Normal tt, s1) ->
  createDirectoryIfNeeded d s1 = (Normal tt, s1) /\
  (p_log s1 = p_log s \/ p_log s1 = p_log s ++ [mkline Stdout true (MsgCreatedDir d)]).
Proof.
  intros Hwf. rewrite !createDirectoryIfNeeded_run.
  destruct (fs_lookup (p_fs s) (resolve_key d)) eqn:E.
  - intros [= <-]. rewrite E. auto.
  - destruct (mkdirSync_recursive d (p_fs s)) as [[[]|] fs'] eqn:M; [|done].
    intros [= <-]. simpl. split; [|by right].
    pose proof (mkdirSync_normal d (p_fs s) fs' Hwf M) as Hd.
    by destruct (fs_lookup fs' (resolve_key d)).
Qed.

(** The run of [organizeFile] on a vanished file. *)
Lemma organizeFile_run_missing f p s :
  fs_wf (p_fs s) ->
  getFolderNameBasedOnExtension (slice1 (extname p)) = Some f ->
  fs_lookup (p_fs s) (resolve_key p) = None ->
  resolve_key p <> folder_key root f ->
  fs_lookup (p_fs s) (root_key root) = Some (EDir false) ->
  fs_lookup (p_fs s) (folder_key root f) = None \/
    is_dir (fs_lookup (p_fs s) (folder_key root f)) = true ->
  let created := negb (is_dir (fs_lookup (p_fs s) (folder_key root f))) in
  let fs1 := if created then add_dir (folder_key root f) (p_fs s) else p_fs s in
  organizeFile root p s =
    (Normal tt,
     mkproc fs1
       (p_log s ++
        (if created then [mkline Stdout true (MsgCreatedDir (targetDir_of root f))] else []) ++
        [mkline Stderr true (MsgMoveError p (missing_errno fs1 (resolve_key p)))])).
Proof.
  intros Hwf Hcl Hks Hne Hr Ht created fs1.
  unfold organizeFile. rewrite (proj2 (String.eqb_neq p "")) by (by eapply classified_nonempty).
  rewrite Hcl. fold (targetDir_of root f). fold (destPath_of root f p).
  unfold bind at 1. rewrite createDirectoryIfNeeded_folder; [|done|by rewrite Hr|done].
  subst created fs1.
  destruct (is_dir (fs_lookup (p_fs s) (folder_key root f))); simpl.
  - unfold try_catch, bind, console_error, modify. rewrite lift_fs_run.
    rewrite renameSync_missing by done. simpl. by destruct s.
  - unfold locked_dir. rewrite Hr. simpl.
    unfold try_catch, bind, console_error, modify. rewrite lift_fs_run. simpl.
    rewrite renameSync_missing.
    + simpl. by rewrite <- app_assoc.
    + rewrite lookup_add_dir. by case_decide.
Qed.

(** C6. A file that vanished between the event and its handling: the
    [renameSync] error is caught and logged on stderr with the path, the
    call returns normally, and the only other effect is the folder's
    creation. *)
Theorem organizeFile_missing_source f p s :
  fs_wf (p_fs s) ->
  getFolderNameBasedOnExtension (slice1 (extname p)) = Some f ->
  fs_lookup (p_fs s) (resolve_key p) = None ->
  resolve_key p <> folder_key root f ->
  fs_lookup (p_fs s) (root_key root) = Some (EDir false) ->
  fs_lookup (p_fs s) (folder_key root f) = None \/
    is_dir (fs_lookup (p_fs s) (folder_key root f)) = true ->
  let created := negb (is_dir (fs_lookup (p_fs s) (folder_key root f))) in
  let fs1 := if created then add_dir (folder_key root f) (p_fs s) else p_fs s in
  organizeFile root p s =
    (Normal tt,
     mkproc fs1
       (p_log s ++
        (if created then [mkline Stdout true (MsgCreatedDir (targetDir_of root f))] else []) ++
        [mkline Stderr true (MsgMoveError p (missing_errno fs1 (resolve_key p)))])).
Proof. exact (organizeFile_run_missing f p s). Qed.

Lemma extname_same_basename a b : basename a = basename b -> extname a = extname b.
Proof. intros H. unfold extname. by rewrite H. Qed.

(** C7. Organizing a file that is already at its destination (the [add]
    event chokidar reports for [root/<folder>/<name>] after a move, since
    the watch is recursive) changes nothing on disk: the rename is from
    the path to itself.  It still logs a [Moved] line. *)
Theorem organizeFile_idempotent f p s e b :
  fs_wf (p_fs s) ->
  getFolderNameBasedOnExtension (slice1 (extname p)) = Some f ->
  fs_lookup (p_fs s) (folder_key root f) = Some (EDir b) ->
  fs_lookup (p_fs s) (dest_key root f p) = Some e ->
  organizeFile root (destPath_of root f p) s =
    (Normal tt, mkproc (p_fs s)
       (p_log s ++ [mkline Stdout true
                      (MsgMoved (destPath_of root f p) (destPath_of root f p))])).
Proof.
  intros Hwf Hcl Hf Hd.
  pose proof (classified_extname p f Hcl) as He.
  assert (Hb : basename (destPath_of root f p) = basename p)
    by (apply basename_join, extname_plain_basename, He).
  assert (Hx := extname_same_basename _ _ Hb).
  rewrite <- Hx in Hcl.
  assert (Hr : is_dir (fs_lookup (p_fs s) (root_key root)) = true).
  { eapply (wf_ancestors _ _ [folder_name f]); [done|exact Hf|done]. }
  unfold organizeFile. rewrite (proj2 (String.eqb_neq _ "")) by (by eapply classified_nonempty).
  rewrite Hcl. fold (targetDir_of root f). rewrite Hb. fold (destPath_of root f p).
  unfold bind at 1. rewrite createDirectoryIfNeeded_folder; [|done|done|by rewrite Hf; right].
  rewrite Hf. simpl. unfold try_catch, bind, console_log, modify. rewrite lift_fs_run.
  rewrite (renameSync_same _ _ _ e b); [by destruct s| | |done].
  - by rewrite key_destPath by exact He.
  - by rewrite key_destPath, parent_dest_key by exact He.
Qed.

(** The run of [organizeFile] when the folder cannot be created. *)
Lemma organizeFile_mkdir_throws f p s :
  fs_wf (p_fs s) ->
  getFolderNameBasedOnExtension (slice1 (extname p)) = Some f ->
  fs_lookup (p_fs s) (root_key root) = Some (EDir true) ->
  fs_lookup (p_fs s) (folder_key root f) = None ->
  organizeFile root p s = (Thrown EACCES, s).
Proof.
  intros Hwf Hcl Hr Hn. unfold organizeFile.
  rewrite (proj2 (String.eqb_neq p "")) by (by eapply classified_nonempty).
  rewrite Hcl. fold (targetDir_of root f).
  unfold bind at 1. rewrite createDirectoryIfNeeded_folder; [|done|by rewrite Hr|by left].
  rewrite Hn. unfold locked_dir. by rewrite Hr.
Qed.

(** C8. The directory creation of line 54 is outside the [try]: when it
    fails (here: the root does not allow new entries), the error escapes
    [organizeFile] and the listener that called it. *)
Theorem organizeFile_mkdir_escapes f p s :
  fs_wf (p_fs s) ->
  getFolderNameBasedOnExtension (slice1 (extname p)) = Some f ->
  fs_lookup (p_fs s) (root_key root) = Some (EDir true) ->
  fs_lookup (p_fs s) (folder_key root f) = None ->
  organizeFile root p s = (Thrown EACCES, s).
Proof. exact (organizeFile_mkdir_throws f p s). Qed.

(** C9. A file already at the destination name is replaced without a
    warning: when its contents were nowhere else, they are lost, and the
    log reports a normal move. *)
Theorem organizeFile_overwrites f p c c0 s :
  fs_wf (p_fs s) ->
  getFolderNameBasedOnExtension (slice1 (extname p)) = Some f ->
  fs_lookup (p_fs s) (resolve_key p) = Some (EFile c) ->
  fs_lookup (p_fs s) (root_key root) = Some (EDir false) ->
  fs_lookup (p_fs s) (folder_key root f) = Some (EDir false) ->
  fs_lookup (p_fs s) (dest_key root f p) = Some (EFile c0) ->
  c <> c0 ->
  (forall k, fs_lookup (p_fs s) k = Some (EFile c0) -> k = dest_key root f p) ->
  locked_dir (p_fs s) (parent (resolve_key p)) = false ->
  (organizeFile root p s).1 = Normal tt /\
  last (p_log (organizeFile root p s).2) =
    Some (mkline Stdout true (MsgMoved p (destPath_of root f p))) /\
  forall k, fs_lookup (p_fs (organizeFile root p s).2) k <> Some (EFile c0).
Proof.
  intros Hwf Hcl Hks Hr Hf Hd Hc Huniq Hl.
  rewrite (organizeFile_run_moved f p c); try done; [| by right | by rewrite Hd | congruence].
  rewrite Hf. simpl. split; [done|]. split; [by rewrite last_snoc|].
  intros k. unfold fs_lookup. simpl. rewrite lookup_insert. case_decide; [congruence|].
  rewrite lookup_delete. case_decide; [done|]. intros Hk. apply Huniq in Hk. congruence.
Qed.
End Lemmas.

(** ** Witnesses: a disk with the root [/w/] and one document *)

Definition sample_fs : fsys :=
  mkfs (list_to_map [([], EDir false); (["w"], EDir false);
                     (["w"; "report.PDF"], EFile "data")]).
Definition sample_proc : proc := mkproc sample_fs [].

(** The root does not allow new entries. *)
Definition sample_locked : proc :=
  mkproc (mkfs (list_to_map [([], EDir false); (["w"], EDir true);
                             (["w"; "report.PDF"], EFile "data")])) [].

(** A file of the same name is already filed. *)
Definition sample_clash : proc :=
  mkproc (mkfs (list_to_map [([], EDir false); (["w"], EDir false);
                             (["w"; "doc"], EDir false);
                             (["w"; "doc"; "report.PDF"], EFile "old");
                             (["w"; "report.PDF"], EFile "data")])) [].

Lemma organizeFile_moves_witness :
  fs_lookup (p_fs (organizeFile "/w/" "/w/report.PDF" sample_proc).2) ["w"; "doc"; "report.PDF"]
  = Some (EFile "data").
Proof.
  pose proof (organizeFile_moves "/w/" doc "/w/report.PDF" "data" sample_proc
    ltac:(fs_eval) ltac:(fs_eval) ltac:(fs_eval) ltac:(fs_eval) ltac:(fs_eval)
    ltac:(fs_eval) ltac:(fs_eval) ltac:(fs_eval)) as H.
  cbv zeta in H. rewrite H. vm_compute. reflexivity.
Defined.

Lemma organizeFile_missing_source_witness :
  last (p_log (organizeFile "/w/" "/w/clip.mp4" sample_proc).2) =
    Some (mkline Stderr true (MsgMoveError "/w/clip.mp4" ENOENT)).
Proof.
  pose proof (organizeFile_missing_source "/w/" video "/w/clip.mp4" sample_proc
    ltac:(fs_eval) ltac:(fs_eval) ltac:(fs_eval) ltac:(fs_eval) ltac:(fs_eval)
    ltac:(fs_eval)) as H.
  cbv zeta in H. rewrite H. vm_compute. reflexivity.
Defined.

Definition sample_after : proc := (organizeFile "/w/" "/w/report.PDF" sample_proc).2.

Lemma organizeFile_idempotent_witness :
  p_fs (organizeFile "/w/" (destPath_of "/w/" doc "/w/report.PDF") sample_after).2
  = p_fs sample_after.
Proof.
  rewrite (organizeFile_idempotent "/w/" doc "/w/report.PDF" sample_after
    (EFile "data") false ltac:(fs_eval) ltac:(fs_eval) ltac:(fs_eval) ltac:(fs_eval)).
  reflexivity.
Defined.

Lemma organizeFile_mkdir_escapes_witness :
  organizeFile "/w/" "/w/report.PDF" sample_locked = (Thrown EACCES, sample_locked).
Proof.
  apply (organizeFile_mkdir_escapes "/w/" doc); fs_eval.
Defined.

Lemma organizeFile_overwrites_witness :
  (organizeFile "/w/" "/w/report.PDF" sample_clash).1 = Normal tt /\
  last (p_log (organizeFile "/w/" "/w/report.PDF" sample_clash).2) =
    Some (mkline Stdout true (MsgMoved "/w/report.PDF" (destPath_of "/w/" doc "/w/report.PDF"))) /\
  forall k, fs_lookup (p_fs (organizeFile "/w/" "/w/report.PDF" sample_clash).2) k
            <> Some (EFile "old").
Proof.
  apply (organizeFile_overwrites "/w/" doc "/w/report.PDF" "data" "old"); fs_eval.
Defined.

Lemma createDirectoryIfNeeded_idempotent_witness :
  createDirectoryIfNeeded "/w/doc" (createDirectoryIfNeeded "/w/doc" sample_proc).2
  = (Normal tt, (createDirectoryIfNeeded "/w/doc" sample_proc).2).
Proof.
  apply (createDirectoryIfNeeded_idempotent "/w/doc" sample_proc); [fs_eval|].
  vm_compute. reflexivity.
Defined.

End Organizer.
