(* ===== verification/Watcher.v ===== *)
(** * The watch controller: start-up, chokidar's options, the listeners

    index.js lines 68-118.  [getExistingFiles] (69-76) lists the watched
    directory once at start-up; [startup] is the module's top level (79 and
    118: the [watch] call itself hands the options to chokidar).  The
    listeners (93-116) are one function [handle] over chokidar's events.
    chokidar is not part of the repository: what the model keeps of it is
    the [ignored] pattern of line 84, which decides which paths it reports,
    and the fact that it calls the listeners one event at a time.  An
    exception that escapes a listener is uncaught: the Node process stops,
    and the controller's [status] becomes [Crashed].

    [step] interleaves the delivery of events with changes the user makes
    to the disk; the theorems about it hold in every reachable state. *)

From Stdlib Require Import Ascii String.
From S2P Require Import Prelude Path Classifier FileSystem Organizer.
Import Classifier FileSystem Organizer.

Local Open Scope list_scope.

Module Watcher.

(** The events chokidar emits ([add], [change], [unlink], [addDir],
    [unlinkDir], [error], [ready]). *)
Inductive event :=
| EvAdd (path : string)
| EvChange (path : string)
| EvUnlink (path : string)
| EvAddDir (path : string)
| EvUnlinkDir (path : string)
| EvError (error : string)
| EvReady.

(** [ignored: /node_modules|\.git/]: an unanchored regular expression,
    tested against the whole path. *)
Definition ignored (path : string) : bool :=
  str_contains "node_modules" path || str_contains ".git" path.

(** The options object of lines 82-90, with [awaitWriteFinish]'s two
    fields inlined.  The model of chokidar reads [opt_ignored]; the other
    fields only tune when chokidar reports an event, which the model
    takes as input. *)
Record watch_options := mkopts {
  persistent : bool;
  opt_ignored : string -> bool;
  ignoreInitial : bool;
  stabilityThreshold : nat;
  pollInterval : nat
}.

Definition watchOptions : watch_options :=
  {| persistent := true; opt_ignored := ignored; ignoreInitial := true;
     stabilityThreshold := 2000; pollInterval := 100 |}.

Definition event_path (ev : event) : option string :=
  match ev with
  | EvAdd p | EvChange p | EvUnlink p | EvAddDir p | EvUnlinkDir p => Some p
  | EvError _ | EvReady => None
  end.

(** chokidar reports an event only for a path its [ignored] option does
    not match. *)
Definition emitted (ev : event) : bool :=
  match event_path ev with
  | Some p => negb (opt_ignored watchOptions p)
  | None => true
  end.

Section WithRoot.
Context (pathToWatch : string).

(** Lines 69-76: the [catch] logs without a timestamp. *)
Definition getExistingFiles (dirPath : string) : st proc errno (list string) :=
  try_catch
    (files <- lift_fs (readdirSync dirPath) ;;
     ret (map (fun file => join dirPath file) files))
    (fun err =>
       modify (fun s => mkproc (p_fs s)
                 (p_log s ++ [mkline Stderr false (MsgReadDirError dirPath err)])) ;;
       ret []).

(** Line 118, the last statement of the module. *)
Definition logWatching : st proc errno unit :=
  console_log (MsgWatching pathToWatch).

(** The module's top level: the listing of line 79; the [watch] call and
    the listeners of lines 82-116 run nothing yet; then line 118. *)
Definition startup : st proc errno (list string) :=
  existingFiles <- getExistingFiles pathToWatch ;;
  logWatching ;;
  ret existingFiles.

(** Lines 93-116. *)
Definition handle (existingFiles : list string) (ev : event) : st proc errno unit :=
  match ev with
  | EvAdd path =>
      if negb (includes existingFiles path) then
        console_log (MsgFileAdded path) ;;
        organizeFile pathToWatch path
      else ret tt
  | EvChange path =>
      console_log (MsgFileChanged path) ;;
      organizeFile pathToWatch path
  | EvUnlink path => console_log (MsgFileRemoved path)
  | EvAddDir path => console_log (MsgDirAdded path)
  | EvUnlinkDir path => console_log (MsgDirRemoved path)
  | EvError error => console_error (MsgWatcherError error)
  | EvReady => console_log (MsgReady pathToWatch)
  end.

(** The process between events: its state, the list computed at
    start-up, and whether a listener let an exception escape. *)
Inductive status := Running | Crashed (e : errno).

Record controller := mkctl {
  c_proc : proc; c_existing : list string; c_status : status }.

Definition init (s : proc) : controller :=
  match startup s with
  | (Normal ex, s') => mkctl s' ex Running
  | (Thrown e, s') => mkctl s' [] (Crashed e)
  end.

(** chokidar calls the listener of an event it emits; a stopped process
    handles nothing. *)
Definition deliver (c : controller) (ev : event) : controller :=
  match c_status c with
  | Crashed _ => c
  | Running =>
      if emitted ev then
        match handle (c_existing c) ev (c_proc c) with
        | (Normal _, s') => mkctl s' (c_existing c) Running
        | (Thrown e, s') => mkctl s' (c_existing c) (Crashed e)
        end
      else c
  end.

Definition run (c : controller) (evs : list event) : controller :=
  fold_left deliver evs c.

(** What the user does to the disk meanwhile. *)
Inductive env_change : fsys -> fsys -> Prop :=
| env_write fs k c :
    k <> [] -> is_dir (fs_lookup fs (parent k)) = true ->
    is_dir (fs_lookup fs k) = false ->
    env_change fs (mkfs (<[k := EFile c]> (fs_entries fs)))
| env_remove fs k c :
    fs_lookup fs k = Some (EFile c) -> env_change fs (mkfs (delete k (fs_entries fs)))
| env_mkdir fs k :
    is_dir (fs_lookup fs (parent k)) = true -> fs_lookup fs k = None ->
    env_change fs (add_dir k fs).

Inductive step : controller -> controller -> Prop :=
| step_event c ev : step c (deliver c ev)
| step_env c fs' :
    env_change (p_fs (c_proc c)) fs' ->
    step c (mkctl (mkproc fs' (p_log (c_proc c))) (c_existing c) (c_status c)).

Definition reachable (c0 c : controller) : Prop := rtc step c0 c.
End WithRoot.

(** Line 7: the watched directory of the program as written; every
    definition above takes it as a parameter. *)
Definition pathToWatch : string := "C:/Users/ASUS/Documents/Mahesh/FileOrginzer/".

(** The process at start-up, on a given disk with an empty console. *)
Definition main (disk : fsys) : controller := init pathToWatch (mkproc disk []).

(** ** Lemmas *)

Section Lemmas.
Context (root : string).

Lemma console_log_run m s :
  console_log m s = (Normal tt, mkproc (p_fs s) (p_log s ++ [mkline Stdout true m])).
Proof. done. Qed.

Lemma console_error_run m s :
  console_error m s = (Normal tt, mkproc (p_fs s) (p_log s ++ [mkline Stderr true m])).
Proof. done. Qed.

Lemma deliver_cases c ev :
  deliver root c ev = c \/
  (c_status c = Running /\
   exists r, handle root (c_existing c) ev (c_proc c) = (r, c_proc (deliver root c ev)) /\
   c_existing (deliver root c ev) = c_existing c /\
   c_status (deliver root c ev) = match r with Normal _ => Running | Thrown e => Crashed e end).
Proof.
  unfold deliver. destruct (c_status c) eqn:Hs; [|by left].
  destruct (emitted ev); [|by left]. right. split; [done|].
  destruct (handle root (c_existing c) ev (c_proc c)) as [[] s'] eqn:E; simpl; eauto.
Qed.

Lemma controller_eta c : mkctl (c_proc c) (c_existing c) (c_status c) = c.
Proof. by destruct c. Qed.

Lemma proc_eta s : mkproc (p_fs s) (p_log s) = s.
Proof. by destruct s. Qed.

Lemma emitted_add_change p : emitted (EvAdd p) = emitted (EvChange p).
Proof. done. Qed.

Lemma deliver_crashed c e ev : c_status c = Crashed e -> deliver root c ev = c.
Proof. unfold deliver. by intros ->. Qed.

Lemma run_crashed c e evs : c_status c = Crashed e -> run root c evs = c.
Proof.
  revert c. induction evs as [|ev evs IH]; intros c Hc; [done|]. simpl.
  rewrite (deliver_crashed c e ev Hc). by apply IH.
Qed.

Lemma reachable_existing c0 c : reachable root c0 c -> c_existing c = c_existing c0.
Proof.
  induction 1 as [|c1 c2 c3 Hs _ IH]; [done|]. rewrite IH.
  destruct Hs as [c1 ev|c1 fs' _]; [|done].
  destruct (deliver_cases c1 ev) as [->|(_ & _ & _ & -> & _)]; done.
Qed.

(** C11. A path listed at start-up: its [add] event is ignored, its
    [change] event is logged and the file is organized. *)
Theorem preexisting_add_ignored_change_organized c p :
  includes (c_existing c) p = true -> c_status c = Running ->
  emitted (EvChange p) = true ->
  deliver root c (EvAdd p) = c /\
  c_proc (deliver root c (EvChange p)) =
    (organizeFile root p (mkproc (p_fs (c_proc c))
       (p_log (c_proc c) ++ [mkline Stdout true (MsgFileChanged p)]))).2.
Proof.
  intros Hin Hs He. unfold deliver. rewrite Hs, emitted_add_change, He. split.
  - simpl. rewrite Hin. simpl. rewrite <- Hs. apply controller_eta.
  - simpl. unfold bind at 1. rewrite console_log_run.
    by destruct (organizeFile root p _) as [[] ?].
Qed.

(** C12. A new, classified file: its [add] event is logged, then the
    file is moved into its folder, the folder created on the way when
    missing; the watcher keeps running. *)
Theorem new_file_added_moved c f p cont :
  c_status c = Running -> includes (c_existing c) p = false -> ignored p = false ->
  fs_wf (p_fs (c_proc c)) ->
  getFolderNameBasedOnExtension (slice1 (extname p)) = Some f ->
  fs_lookup (p_fs (c_proc c)) (resolve_key p) = Some (EFile cont) ->
  fs_lookup (p_fs (c_proc c)) (root_key root) = Some (EDir false) ->
  fs_lookup (p_fs (c_proc c)) (folder_key root f) = None \/
    fs_lookup (p_fs (c_proc c)) (folder_key root f) = Some (EDir false) ->
  is_dir (fs_lookup (p_fs (c_proc c)) (dest_key root f p)) = false ->
  resolve_key p <> dest_key root f p ->
  locked_dir (p_fs (c_proc c)) (parent (resolve_key p)) = false ->
  let fs := p_fs (c_proc c) in
  let created := negb (is_dir (fs_lookup fs (folder_key root f))) in
  let fs1 := if created then add_dir (folder_key root f) fs else fs in
  deliver root c (EvAdd p) =
    mkctl (mkproc (mkfs (<[dest_key root f p := EFile cont]>
                           (delete (resolve_key p) (fs_entries fs1))))
             (p_log (c_proc c) ++ [mkline Stdout true (MsgFileAdded p)] ++
              (if created then [mkline Stdout true (MsgCreatedDir (targetDir_of root f))]
               else []) ++
              [mkline Stdout true (MsgMoved p (destPath_of root f p))]))
      (c_existing c) Running.
Proof.
  intros Hs Hin Hig Hwf Hcl Hks Hr Ht Hkd Hne Hl fs created fs1.
  unfold deliver. rewrite Hs. unfold emitted. simpl. rewrite Hig. simpl.
  rewrite Hin. simpl. unfold bind at 1. rewrite console_log_run.
  rewrite (organizeFile_run_moved root f p cont); try done. simpl.
  by rewrite <- app_assoc.
Qed.

(** C13. A file that vanished before its [change] event is handled: the
    listener logs the event, [organizeFile] logs the caught [renameSync]
    error on stderr, the folder is created when missing, and the watcher
    keeps running. *)
Theorem vanished_file_change_keeps_running c f p :
  c_status c = Running -> ignored p = false ->
  fs_wf (p_fs (c_proc c)) ->
  getFolderNameBasedOnExtension (slice1 (extname p)) = Some f ->
  fs_lookup (p_fs (c_proc c)) (resolve_key p) = None ->
  resolve_key p <> folder_key root f ->
  fs_lookup (p_fs (c_proc c)) (root_key root) = Some (EDir false) ->
  fs_lookup (p_fs (c_proc c)) (folder_key root f) = None \/
    is_dir (fs_lookup (p_fs (c_proc c)) (folder_key root f)) = true ->
  let fs := p_fs (c_proc c) in
  let created := negb (is_dir (fs_lookup fs (folder_key root f))) in
  let fs1 := if created then add_dir (folder_key root f) fs else fs in
  deliver root c (EvChange p) =
    mkctl (mkproc fs1
             (p_log (c_proc c) ++ [mkline Stdout true (MsgFileChanged p)] ++
              (if created then [mkline Stdout true (MsgCreatedDir (targetDir_of root f))]
               else []) ++
              [mkline Stderr true (MsgMoveError p (missing_errno fs1 (resolve_key p)))]))
      (c_existing c) Running.
Proof.
  intros Hs Hig Hwf Hcl Hks Hne Hr Ht fs created fs1.
  unfold deliver. rewrite Hs. unfold emitted. simpl. rewrite Hig. simpl.
  unfold bind at 1. rewrite console_log_run.
  rewrite (organizeFile_run_missing root f p); try done. simpl.
  by rewrite <- app_assoc.
Qed.

(** C14. Every other event ([unlink], [addDir], [unlinkDir], [error],
    [ready]) logs one line and does nothing else; only [error] goes to
    stderr, and it does not stop the watcher. *)
Theorem handle_log_only ex ev s :
  match ev with EvAdd _ | EvChange _ => False | _ => True end ->
  exists l, handle root ex ev s = (Normal tt, mkproc (p_fs s) (p_log s ++ [l])) /\
    (ll_stream l = Stderr <-> exists e, ev = EvError e).
Proof.
  destruct ev; intros H; try contradiction; eexists; (split; [reflexivity|]);
    simpl; split; try (intros [? ?]); try done; eauto.
Qed.

(** C15. The start-up listing is never refreshed: in every reachable
    state, an [add] event for a path it holds is ignored, also when the
    file was deleted and a new file was created under the same name. *)
Theorem existing_frozen c0 c p :
  reachable root c0 c -> includes (c_existing c0) p = true ->
  deliver root c (EvAdd p) = c.
Proof.
  intros Hr Hin. rewrite <- (reachable_existing c0 c Hr) in Hin.
  unfold deliver. destruct (c_status c) eqn:Hs; [|done].
  destruct (emitted _); [|done]. simpl. rewrite Hin. simpl. rewrite <- Hs.
  apply controller_eta.
Qed.

(** C16. chokidar's [ignored] pattern is unanchored: any path that
    contains [.git] or [node_modules] anywhere (as [my.github.pdf] does)
    is never organized, whether added or changed. *)
Theorem ignored_never_handled c p :
  str_contains ".git" p = true \/ str_contains "node_modules" p = true ->
  deliver root c (EvAdd p) = c /\ deliver root c (EvChange p) = c.
Proof.
  intros Hp. assert (Hi : ignored p = true).
  { unfold ignored. apply orb_true_iff. tauto. }
  unfold deliver, emitted. simpl. rewrite Hi. simpl.
  by destruct (c_status c).
Qed.

(** C17. Start-up never stops the process: the listing of the watched
    directory is the list of its entries joined to the root; when it
    cannot be read, the list is empty and the error is logged on stderr
    without a timestamp. *)
Theorem init_spec s :
  init root s =
    match fs_lookup (p_fs s) (root_key root) with
    | Some (EDir _) =>
        mkctl (mkproc (p_fs s) (p_log s ++ [mkline Stdout true (MsgWatching root)]))
          (map (join root) (children_names (p_fs s) (root_key root))) Running
    | Some (EFile _) =>
        mkctl (mkproc (p_fs s) (p_log s ++
                 [mkline Stderr false (MsgReadDirError root ENOTDIR);
                  mkline Stdout true (MsgWatching root)])) [] Running
    | None =>
        mkctl (mkproc (p_fs s) (p_log s ++
                 [mkline Stderr false
                    (MsgReadDirError root (missing_errno (p_fs s) (root_key root)));
                  mkline Stdout true (MsgWatching root)])) [] Running
    end.
Proof.
  unfold init, startup, getExistingFiles, try_catch, bind, ret, modify, console_log.
  rewrite lift_fs_run. unfold readdirSync, root_key.
  destruct (fs_lookup (p_fs s) (resolve_key root)) as [[]|]; simpl;
    by rewrite <- ?app_assoc.
Qed.

(** C18. An error of the directory creation escapes the [add] listener:
    the process stops, and no later event is handled. *)
Theorem mkdir_failure_stops_watcher c f p evs :
  c_status c = Running -> includes (c_existing c) p = false -> ignored p = false ->
  fs_wf (p_fs (c_proc c)) ->
  getFolderNameBasedOnExtension (slice1 (extname p)) = Some f ->
  fs_lookup (p_fs (c_proc c)) (root_key root) = Some (EDir true) ->
  fs_lookup (p_fs (c_proc c)) (folder_key root f) = None ->
  c_status (deliver root c (EvAdd p)) = Crashed EACCES /\
  run root (deliver root c (EvAdd p)) evs = deliver root c (EvAdd p).
Proof.
  intros Hs Hin Hig Hwf Hcl Hr Hn.
  assert (Hst : c_status (deliver root c (EvAdd p)) = Crashed EACCES).
  { unfold deliver. rewrite Hs. unfold emitted. simpl. rewrite Hig. simpl.
    rewrite Hin. simpl. unfold bind at 1. rewrite console_log_run.
    by rewrite (organizeFile_mkdir_throws root f p). }
  split; [done|]. by apply (run_crashed _ EACCES).
Qed.
End Lemmas.

(** ** Scenarios on a small disk *)

(** The user writes or removes a file: the [step_env] transitions. *)
Definition write_file (c : controller) (k : key) (cont : string) : controller :=
  mkctl (mkproc (mkfs (<[k := EFile cont]> (fs_entries (p_fs (c_proc c)))))
                (p_log (c_proc c))) (c_existing c) (c_status c).

Definition remove_file (c : controller) (k : key) : controller :=
  mkctl (mkproc (mkfs (delete k (fs_entries (p_fs (c_proc c)))))
                (p_log (c_proc c))) (c_existing c) (c_status c).

(** The root [/w/] holds [old.txt] when the watcher starts. *)
Definition disk0 : fsys :=
  mkfs (list_to_map [([], EDir false); (["w"], EDir false); (["w"; "old.txt"], EFile "o")]).

Definition c_start : controller := init "/w/" (mkproc disk0 []).

(** Then the user saves three files. *)
Definition c_saved : controller :=
  write_file (write_file (write_file c_start ["w"; "report.PDF"] "r")
                ["w"; "clip.mp4"] "v") ["w"; "notes.xyz"] "n".

Lemma preexisting_add_ignored_change_organized_witness :
  deliver "/w/" c_start (EvAdd "/w/old.txt") = c_start.
Proof.
  apply (proj1 (preexisting_add_ignored_change_organized "/w/" c_start "/w/old.txt"
    ltac:(fs_eval) ltac:(fs_eval) ltac:(fs_eval))).
Defined.

Lemma new_file_added_moved_witness :
  c_status (deliver "/w/" c_saved (EvAdd "/w/report.PDF")) = Running.
Proof.
  pose proof (new_file_added_moved "/w/" c_saved doc "/w/report.PDF" "r"
    ltac:(fs_eval) ltac:(fs_eval) ltac:(fs_eval) ltac:(fs_eval) ltac:(fs_eval)
    ltac:(fs_eval) ltac:(fs_eval) ltac:(fs_eval) ltac:(fs_eval) ltac:(fs_eval)
    ltac:(fs_eval)) as H.
  cbv zeta in H. rewrite H. reflexivity.
Defined.

Lemma vanished_file_change_keeps_running_witness :
  c_status (deliver "/w/" c_start (EvChange "/w/gone.pdf")) = Running.
Proof.
  pose proof (vanished_file_change_keeps_running "/w/" c_start doc "/w/gone.pdf"
    ltac:(fs_eval) ltac:(fs_eval) ltac:(fs_eval) ltac:(fs_eval) ltac:(fs_eval)
    ltac:(fs_eval) ltac:(fs_eval) ltac:(fs_eval)) as H.
  cbv zeta in H. rewrite H. reflexivity.
Defined.

Lemma handle_log_only_witness :
  exists l, handle "/w/" [] (EvError "EPERM") sample_proc =
              (Normal tt, mkproc (p_fs sample_proc) (p_log sample_proc ++ [l])) /\
            (ll_stream l = Stderr <-> exists e, EvError "EPERM" = EvError e).
Proof. exact (handle_log_only "/w/" [] (EvError "EPERM") sample_proc I). Defined.

(** A controller whose root refuses new entries, with a new document. *)
Definition c_locked : controller := mkctl sample_locked [] Running.

(** [old.txt] is deleted, and a new [old.txt] is saved. *)
Definition c_recreated : controller :=
  write_file (remove_file c_start ["w"; "old.txt"]) ["w"; "old.txt"] "new".

Lemma existing_frozen_witness :
  deliver "/w/" c_recreated (EvAdd "/w/old.txt") = c_recreated.
Proof.
  apply (existing_frozen "/w/" c_start).
  - apply (rtc_l _ _ (remove_file c_start ["w"; "old.txt"])).
    + apply step_env. apply (env_remove _ _ "o"). fs_eval.
    + apply rtc_once. apply step_env. apply env_write; fs_eval.
  - fs_eval.
Defined.

Lemma ignored_never_handled_witness :
  deliver "/w/" c_start (EvAdd "/w/my.github.pdf") = c_start /\
  deliver "/w/" c_start (EvChange "/w/my.github.pdf") = c_start.
Proof. apply ignored_never_handled. left. fs_eval. Defined.

Lemma mkdir_failure_stops_watcher_witness :
  c_status (deliver "/w/" c_locked (EvAdd "/w/report.PDF")) = Crashed EACCES /\
  run "/w/" (deliver "/w/" c_locked (EvAdd "/w/report.PDF")) [EvReady; EvChange "/w/report.PDF"]
  = deliver "/w/" c_locked (EvAdd "/w/report.PDF").
Proof.
  apply (mkdir_failure_stops_watcher "/w/" c_locked doc); fs_eval.
Defined.

End Watcher.
